(** * Conference bot: reservation store, voting store and the admin forms

    A shallow embedding of [bot/database.py] (class [Database]), of
    [bot/keyboards.py], of the allow-list of [bot/config.py] and of the
    handlers of [bot/handlers/booking.py], [bot/handlers/polls.py],
    [bot/handlers/admin.py] and [bot/handlers/user.py] that drive them.

    Every [Database] method opens its own connection, runs its statements
    and commits; here a method is a function from the database value to a
    result and the next database value: the whole call, with no other
    coroutine running in between.  [create_booking], the method that reads
    before it writes, is also given statement by statement ([resume],
    [event_loop]); what overlapping calls do is settled there.

    The SQLite tables are modelled as the schema of [init_db] declares
    them.  [users], [activities] and [polls] have an INTEGER PRIMARY KEY
    and are finite maps from that key.  [bookings] and [poll_votes] are
    lists of rows in insertion order; their UNIQUE constraints are checked
    by the INSERT statements, which raise [IntegrityError] on a conflict.
    The FOREIGN KEY clauses are declarations only: no connection issues
    [PRAGMA foreign_keys = ON], so SQLite does not enforce them.  No query
    has an ORDER BY: a list of rows is one enumeration of them.

    Identifiers, counts and capacities are Python integers, modelled as
    [Z].  [sqlite3] binds an integer as a signed 64-bit value and raises
    [OverflowError] for any other ([sqlite_int]).  [add_activity], whose
    capacity an administrator types, is modelled with that failure; the
    methods that receive identifiers and option indices are modelled for
    the values SQLite stores, and the statements that quantify over such
    values say so.

    A text is kept as its UTF-8 bytes and read character by character;
    [strip] and [int] follow CPython 3.11 (Unicode 14.0).  A float is an
    IEEE binary64 number ([spec_float]).  The handlers of messages are
    modelled for a message that carries a text. *)

From stdpp Require Import base gmap list strings fin_maps.
From Stdlib Require Import Ascii ZArith Lia SpecFloat DecimalString DecimalZ DecimalPos DecimalN.

Local Open Scope Z_scope.

(** ** Rows of the tables of [init_db] *)

Record User := mkUser {
  user_id : Z;
  username : option string;
  first_name : option string;
  last_name : option string;
  is_admin_flag : bool
}.

Record Activity := mkActivity {
  activity_id : Z;
  name : string;
  description : string;
  date_time : string;
  max_capacity : Z;
  is_active : bool
}.

Record Booking := mkBooking {
  booking_id : Z;
  b_user_id : Z;
  b_activity_id : Z;
  booked_at : string
}.

Record Poll := mkPoll {
  poll_id : Z;
  question : string;
  options : list string;
  poll_is_active : bool
}.

Record Vote := mkVote {
  vote_id : Z;
  v_poll_id : Z;
  v_user_id : Z;
  option_index : Z;
  voted_at : string
}.

(** The database file.  The [seq_] fields are the AUTOINCREMENT counters
    (table [sqlite_sequence]): the last key handed out per table. *)
Record Db := mkDb {
  users : gmap Z User;
  activities : gmap Z Activity;
  bookings : list Booking;
  polls : gmap Z Poll;
  poll_votes : list Vote;
  seq_activities : Z;
  seq_bookings : Z;
  seq_polls : Z;
  seq_votes : Z
}.

Definition empty_db : Db :=
  mkDb ∅ ∅ [] ∅ [] 0 0 0 0.

Definition with_users (db : Db) (us : gmap Z User) : Db :=
  mkDb us (activities db) (bookings db) (polls db) (poll_votes db)
       (seq_activities db) (seq_bookings db) (seq_polls db) (seq_votes db).

Definition with_bookings (db : Db) (bs : list Booking) (sq : Z) : Db :=
  mkDb (users db) (activities db) bs (polls db) (poll_votes db)
       (seq_activities db) sq (seq_polls db) (seq_votes db).

Definition with_votes (db : Db) (vs : list Vote) (sq : Z) : Db :=
  mkDb (users db) (activities db) (bookings db) (polls db) vs
       (seq_activities db) (seq_bookings db) (seq_polls db) sq.

(** ** User and activity methods *)

(** [add_user]: INSERT OR REPLACE INTO users. *)
Definition add_user (uid : Z) (uname fname lname : option string)
    (adm : bool) (db : Db) : Db :=
  with_users db (<[uid := mkUser uid uname fname lname adm]> (users db)).

(** The exceptions that escape the methods and the handlers. *)
Inductive PyExn :=
| IndexError
| KeyError (key : string)
| TypeError
| ZeroDivisionError
| OverflowError.

(** [sqlite3] binds a Python integer as a signed 64-bit value; for any
    other integer it raises [OverflowError] before the statement runs. *)
Definition sqlite_int (z : Z) : bool :=
  bool_decide (- 2 ^ 63 ≤ z < 2 ^ 63).

(** INSERT INTO activities (name, description, date_time, max_capacity):
    the row gets the next AUTOINCREMENT key and is active. *)
Definition insert_activity (nm descr dt : string) (cap : Z) (db : Db)
    : Z * Db :=
  let aid := seq_activities db + 1 in
  (aid,
   mkDb (users db)
        (<[aid := mkActivity aid nm descr dt cap true]> (activities db))
        (bookings db) (polls db) (poll_votes db)
        aid (seq_bookings db) (seq_polls db) (seq_votes db)).

(** [add_activity]: "Add new activity."  Returns [cursor.lastrowid]; the
    capacity is the one integer parameter, typed by an administrator. *)
Definition add_activity (nm descr dt : string) (cap : Z) (db : Db)
    : PyExn + Z * Db :=
  if sqlite_int cap then inr (insert_activity nm descr dt cap db)
  else inl OverflowError.

(** [get_activity]: SELECT * FROM activities WHERE activity_id = ?. *)
Definition get_activity (aid : Z) (db : Db) : option Activity :=
  activities db !! aid.

(** ** Booking methods *)

(** WHERE activity_id = ? over [bookings]. *)
Definition bookings_of_activity (aid : Z) (db : Db) : list Booking :=
  filter (λ b, b_activity_id b = aid) (bookings db).

(** WHERE user_id = ? AND activity_id = ? over [bookings]. *)
Definition booking_matches (uid aid : Z) (b : Booking) : Prop :=
  b_user_id b = uid ∧ b_activity_id b = aid.

#[global] Instance booking_matches_dec uid aid b :
  Decision (booking_matches uid aid b).
Proof. unfold booking_matches. apply _. Defined.

(** [get_booking_count]: SELECT COUNT( * ) FROM bookings WHERE activity_id = ?. *)
Definition get_booking_count (aid : Z) (db : Db) : Z :=
  Z.of_nat (length (bookings_of_activity aid db)).

(** [is_user_booked]: a row SELECT 1 ... WHERE user_id = ? AND activity_id = ?
    exists. *)
Definition is_user_booked (uid aid : Z) (db : Db) : bool :=
  match filter (booking_matches uid aid) (bookings db) with
  | [] => false
  | _ :: _ => true
  end.

(** INSERT INTO bookings (user_id, activity_id) VALUES (?, ?).
    [None] is [aiosqlite.IntegrityError], raised by UNIQUE(user_id,
    activity_id); [now] is the CURRENT_TIMESTAMP default of [booked_at]. *)
Definition insert_booking (now : string) (uid aid : Z) (db : Db) : option Db :=
  if is_user_booked uid aid db then None
  else
    let bid := seq_bookings db + 1 in
    Some (with_bookings db (bookings db ++ [mkBooking bid uid aid now]) bid).

(** [create_booking]: "Create a booking if capacity allows."  The whole
    call; [resume] below gives it one statement at a time. *)
Definition create_booking (now : string) (uid aid : Z) (db : Db) : bool * Db :=
  let current_count := get_booking_count aid db in
  match activities db !! aid with
  | None => (false, db)
  | Some row =>
      let cap := max_capacity row in
      if bool_decide (cap ≤ current_count) then (false, db)
      else
        match insert_booking now uid aid db with
        | Some db' => (true, db')
        | None => (false, db)
        end
  end.

(** [cancel_booking]: DELETE FROM bookings WHERE user_id = ? AND
    activity_id = ?; returns [cursor.rowcount > 0]. *)
Definition cancel_booking (uid aid : Z) (db : Db) : bool * Db :=
  let deleted := filter (booking_matches uid aid) (bookings db) in
  let kept := filter (λ b, ¬ booking_matches uid aid b) (bookings db) in
  (bool_decide (0 < Z.of_nat (length deleted)),
   with_bookings db kept (seq_bookings db)).

(** A row of the join of [get_activity_bookings]: the booking columns and
    the three selected columns of the matching user. *)
Record BookingListing := mkListing {
  l_booking : Booking;
  l_username : option string;
  l_first_name : option string;
  l_last_name : option string
}.

(** [get_activity_bookings]: bookings b JOIN users u ON b.user_id =
    u.user_id WHERE b.activity_id = ?.  An inner join: a booking without a
    user row yields no row. *)
Definition get_activity_bookings (aid : Z) (db : Db) : list BookingListing :=
  omap (λ b,
          match users db !! b_user_id b with
          | Some u => Some (mkListing b (username u) (first_name u) (last_name u))
          | None => None
          end)
       (bookings_of_activity aid db).

(** ** Handler results

    A handler talks to the chat through [callback.answer] and
    [message.edit_text] / [message.answer]; its model returns the list of
    those calls in order, or the exception that escapes it. *)

(** What [show_activity_details] renders: the status emoji and the figures
    of its text. *)
Record ActivityView := mkView {
  view_activity : Activity;
  view_status : string;
  view_count : Z;
  view_is_booked : bool;
  view_is_full : bool
}.

(** A line of [show_poll_results]: option label, votes and percentage,
    a Python float (IEEE binary64). *)
Record ResultLine := mkLine {
  line_option : string;
  line_votes : Z;
  line_percentage : spec_float
}.

(** A data row written by [export_bookings]. *)
Record CsvRow := mkCsvRow {
  csv_no : Z;
  csv_first_name : string;
  csv_last_name : string;
  csv_username : string;
  csv_user_id : Z;
  csv_booked_at : string
}.

Inductive ResultsBody :=
| NobodyVoted
| Lines (ls : list ResultLine) (total_votes : Z).

(** [AdminStates] of [admin.py] and [PollStates] of [polls.py]. *)
Inductive FsmState :=
| waiting_broadcast_message
| waiting_activity_name
| waiting_activity_description
| waiting_activity_datetime
| waiting_activity_capacity
| waiting_question
| waiting_options.

(** [Alert] is [callback.answer(text, show_alert=True)], [Toast] is
    [callback.answer(text)], [Ack] a bare [callback.answer()], [Send] a
    [message.answer(text)] with a literal text.  The longer templates are kept by what they carry: the view of an
    activity, the results of a poll, the prompt of a form step, the
    confirmation of a created activity, the participants of the admin
    view, the rows of the exported file. *)
Inductive Event :=
| Alert (text : string)
| Toast (text : string)
| Ack
| Send (text : string)
| EditActivity (v : ActivityView)
| ResultsMessage (q : string) (body : ResultsBody) (close_button : bool)
| Prompt (step : FsmState)
| ActivityCreated (nm dt : string) (cap : Z)
| AdminActivityView (nm : string) (booked cap : Z) (participants : list (Z * string))
| Document (activity_name : string) (rows : list CsvRow) (total : Z).

Inductive Outcome :=
| Done (evs : list Event)
| Raise (e : PyExn).

(** ** [bot/handlers/booking.py] *)

Definition msg_activity_not_found : string := "Активность не найдена".
Definition msg_booked : string := "✅ Вы успешно записаны!".
Definition msg_already_booked : string := "⚠️ Вы уже записаны на эту активность".
Definition msg_all_taken : string := "❌ Все места заняты".

(** [show_activity_details], for the activity id parsed from the callback
    data. *)
Definition show_activity_details (uid aid : Z) (db : Db) : list Event :=
  match get_activity aid db with
  | None => [Alert msg_activity_not_found]
  | Some activity =>
      let is_booked := is_user_booked uid aid db in
      let booking_count := get_booking_count aid db in
      let is_full := bool_decide (max_capacity activity ≤ booking_count) in
      let status_emoji :=
        if is_booked then "✅" else if is_full then "❌" else "📝" in
      [EditActivity (mkView activity status_emoji booking_count is_booked is_full);
       Ack]
  end.

(** [book_activity]: "Try to create booking", then on failure "Check why
    booking failed". *)
Definition book_activity (now : string) (uid aid : Z) (db : Db)
    : list Event * Db :=
  let '(success, db1) := create_booking now uid aid db in
  if success then
    (Alert msg_booked :: show_activity_details uid aid db1, db1)
  else
    let is_booked := is_user_booked uid aid db1 in
    if is_booked then ([Alert msg_already_booked], db1)
    else ([Alert msg_all_taken], db1).

(** ** Poll methods of [Database] *)

Definition get_poll (pid : Z) (db : Db) : option Poll :=
  polls db !! pid.

Definition vote_matches (pid uid : Z) (v : Vote) : Prop :=
  v_poll_id v = pid ∧ v_user_id v = uid.

#[global] Instance vote_matches_dec pid uid v : Decision (vote_matches pid uid v).
Proof. unfold vote_matches. apply _. Defined.

(** WHERE poll_id = ? over [poll_votes]. *)
Definition votes_of_poll (pid : Z) (db : Db) : list Vote :=
  filter (λ v, v_poll_id v = pid) (poll_votes db).

Definition has_voted (pid uid : Z) (db : Db) : bool :=
  match filter (vote_matches pid uid) (poll_votes db) with
  | [] => false
  | _ :: _ => true
  end.

(** INSERT INTO poll_votes (poll_id, user_id, option_index); [None] is
    the [IntegrityError] of UNIQUE(poll_id, user_id). *)
Definition insert_vote (now : string) (pid uid idx : Z) (db : Db) : option Db :=
  if has_voted pid uid db then None
  else
    let vid := seq_votes db + 1 in
    Some (with_votes db (poll_votes db ++ [mkVote vid pid uid idx now]) vid).

(** [vote_poll]: "Vote in a poll."  For a poll id, an actor and an
    option index that SQLite stores ([sqlite_int]). *)
Definition vote_poll (now : string) (pid uid idx : Z) (db : Db) : bool * Db :=
  match insert_vote now pid uid idx db with
  | Some db' => (true, db')
  | None => (false, db)
  end.

(** GROUP BY option_index with COUNT( * ): every row adds one to the group
    of its option index. *)
Definition count_group (v : Vote) (groups : gmap Z Z) : gmap Z Z :=
  <[option_index v := default 0 (groups !! option_index v) + 1]> groups.

(** [get_poll_results]: "option_index -> vote count". *)
Definition get_poll_results (pid : Z) (db : Db) : gmap Z Z :=
  foldr count_group ∅ (votes_of_poll pid db).

(** [sum(results.values())]. *)
Definition sum_values (results : gmap Z Z) : Z :=
  map_fold (λ _ c acc, c + acc) 0 results.

(** [create_poll]: INSERT INTO polls (question, options). *)
Definition create_poll (q : string) (opts : list string) (db : Db) : Z * Db :=
  let pid := seq_polls db + 1 in
  (pid,
   mkDb (users db) (activities db) (bookings db)
        (<[pid := mkPoll pid q opts true]> (polls db)) (poll_votes db)
        (seq_activities db) (seq_bookings db) pid (seq_votes db)).

(** [close_poll]: UPDATE polls SET is_active = 0 WHERE poll_id = ?. *)
Definition close_poll (pid : Z) (db : Db) : Db :=
  mkDb (users db) (activities db) (bookings db)
       (alter (λ p, mkPoll (poll_id p) (question p) (options p) false) pid
              (polls db))
       (poll_votes db)
       (seq_activities db) (seq_bookings db) (seq_polls db) (seq_votes db).

(** ** Python expressions used by the handlers *)

(** [l[i]] on a list: a negative index counts from the end; [None] is
    [IndexError]. *)
Definition py_index {A} (l : list A) (i : Z) : option A :=
  let n := Z.of_nat (length l) in
  if bool_decide (0 ≤ i) then l !! Z.to_nat i
  else if bool_decide (- n ≤ i) then l !! Z.to_nat (n + i)
  else None.

(** A Python float is an IEEE binary64 number; the operations round to
    nearest, ties to even.  An integer operand is taken exactly. *)
Definition float_of_int (z : Z) : spec_float :=
  match z with
  | Z0 => S754_zero false
  | Zpos p => S754_finite false p 0
  | Zneg p => S754_finite true p 0
  end.

(** The least magnitude that rounds beyond the largest float. *)
Definition DBL_OVERFLOW : Z := 2 ^ 1024 - 2 ^ 970.

(** [a / b] on integers: the quotient correctly rounded;
    [ZeroDivisionError] for [b = 0], [OverflowError] when the quotient
    is too large for a float. *)
Definition py_truediv (a b : Z) : PyExn + spec_float :=
  if bool_decide (b = 0) then inl ZeroDivisionError
  else if bool_decide (DBL_OVERFLOW * Z.abs b ≤ Z.abs a) then inl OverflowError
  else inr (SFdiv 53 1024 (float_of_int a) (float_of_int b)).

(** [enumerate(l)]. *)
Definition enumerate {A} (l : list A) : list (Z * A) :=
  imap (λ i x, (Z.of_nat i, x)) l.

(** ** [bot/handlers/polls.py] *)

Definition msg_vote_accepted : string := "✅ Голос принят".
Definition msg_voted_for (selected_option : string) : string :=
  "✅ Вы проголосовали за: " +:+ selected_option.
Definition msg_already_voted : string := "⚠️ Вы уже проголосовали в этом опросе".
Definition msg_poll_not_found : string := "Опрос не найден".

(** [vote_in_poll], for the poll id and option index parsed from the
    callback data [vote_<poll>_<index>]. *)
Definition vote_in_poll (now : string) (pid uid idx : Z) (db : Db)
    : Outcome * Db :=
  let '(success, db1) := vote_poll now pid uid idx db in
  if success then
    match get_poll pid db1 with
    | Some poll =>
        if poll_is_active poll then
          match py_index (options poll) idx with
          | Some selected_option =>
              (Done [Alert (msg_voted_for selected_option)], db1)
          | None => (Raise IndexError, db1)
          end
        else (Done [Alert msg_vote_accepted], db1)
    | None => (Done [Alert msg_vote_accepted], db1)
    end
  else (Done [Alert msg_already_voted], db1).

(** [(votes / total_votes * 100) if total_votes > 0 else 0]. *)
Definition percentage (votes total_votes : Z) : PyExn + spec_float :=
  if bool_decide (0 < total_votes)
  then
    match py_truediv votes total_votes with
    | inr q => inr (SFmul 53 1024 q (float_of_int 100))
    | inl e => inl e
    end
  else inr (float_of_int 0).

(** The body of the loop over [enumerate(poll['options'])]. *)
Definition result_line (results : gmap Z Z) (total_votes : Z)
    (io : Z * string) : PyExn + ResultLine :=
  let votes := default 0 (results !! io.1) in
  match percentage votes total_votes with
  | inr p => inr (mkLine io.2 votes p)
  | inl e => inl e
  end.

(** The loop: the first exception ends it. *)
Fixpoint result_lines_loop (ios : list (Z * string)) (results : gmap Z Z)
    (total_votes : Z) : PyExn + list ResultLine :=
  match ios with
  | [] => inr []
  | io :: rest =>
      match result_line results total_votes io with
      | inl e => inl e
      | inr l =>
          match result_lines_loop rest results total_votes with
          | inl e => inl e
          | inr ls => inr (l :: ls)
          end
      end
  end.

Definition result_lines (opts : list string) (results : gmap Z Z)
    (total_votes : Z) : PyExn + list ResultLine :=
  result_lines_loop (enumerate opts) results total_votes.

(** ** Python text

    A [str] is a sequence of code points; a text is kept here as its
    UTF-8 bytes.  [utf8_chars] cuts a text into its characters: a byte
    10xxxxxx continues the character of the non-ASCII byte before it. *)
Definition is_continuation (c : ascii) : bool :=
  let n := N_of_ascii c in ((128 <=? n) && (n <? 192))%N.

(** Whether byte [d] belongs to the character that holds byte [c]. *)
Definition joins (c d : ascii) : bool :=
  is_continuation d && (128 <=? N_of_ascii c)%N.

Fixpoint utf8_chars (s : string) : list string :=
  match s with
  | EmptyString => []
  | String c r =>
      match utf8_chars r with
      | String d ch :: chs =>
          if joins c d then String c (String d ch) :: chs
          else String c "" :: String d ch :: chs
      | chs => String c "" :: chs
      end
  end.

(** The code point of a character; [None] for bytes that encode none. *)
Definition code_point (ch : string) : option N :=
  match N_of_ascii <$> String.list_ascii_of_string ch with
  | [a] => if (a <? 128)%N then Some a else None
  | [a; b] =>
      if ((194 <=? a) && (a <? 224))%N
      then Some ((a - 192) * 64 + (b - 128))%N else None
  | [a; b; c] =>
      let cp := ((a - 224) * 4096 + (b - 128) * 64 + (c - 128))%N in
      if ((224 <=? a) && (a <? 240) && (2048 <=? cp))%N
      then Some cp else None
  | [a; b; c; d] =>
      let cp := ((a - 240) * 262144 + (b - 128) * 4096
                 + (c - 128) * 64 + (d - 128))%N in
      if ((240 <=? a) && (a <? 245) && (65536 <=? cp) && (cp <? 1114112))%N
      then Some cp else None
  | _ => None
  end.

(** [Py_UNICODE_ISSPACE]: the characters that [str.strip()] removes and
    [str.isspace()] accepts. *)
Definition Py_UNICODE_ISSPACE (cp : N) : bool :=
  (((9 <=? cp) && (cp <=? 13)) || ((28 <=? cp) && (cp <=? 32))
   || (cp =? 133) || (cp =? 160) || (cp =? 5760)
   || ((8192 <=? cp) && (cp <=? 8202))
   || (cp =? 8232) || (cp =? 8233) || (cp =? 8239) || (cp =? 8287)
   || (cp =? 12288))%N.

Definition is_py_space (ch : string) : bool :=
  match code_point ch with
  | Some cp => Py_UNICODE_ISSPACE cp
  | None => false
  end.

Fixpoint lstrip_chars (l : list string) : list string :=
  match l with
  | ch :: l' => if is_py_space ch then lstrip_chars l' else l
  | [] => []
  end.

(** ["".join(l)]. *)
Definition joined (l : list string) : string :=
  foldr String.append "" l.

Definition strip_chars (l : list string) : list string :=
  rev (lstrip_chars (rev (lstrip_chars l))).

(** [s.strip()]. *)
Definition strip (s : string) : string :=
  joined (strip_chars (utf8_chars s)).

(** [int(s)] first rewrites the text
    ([_PyUnicode_TransformDecimalAndSpaceToASCII]): a character below 127
    stays, any other whitespace becomes a blank, any other decimal digit
    its ASCII digit, and anything else makes the text invalid.  The first
    code points of the ranges of decimal digits, ten each, are those of
    Unicode 14.0, the database of CPython 3.11. *)
Definition decimal_starts : list N :=
  [48; 1632; 1776; 1984; 2406; 2534; 2662; 2790; 2918; 3046; 3174; 3302;
   3430; 3558; 3664; 3792; 3872; 4160; 4240; 6112; 6160; 6470; 6608; 6784;
   6800; 6992; 7088; 7232; 7248; 42528; 43216; 43264; 43472; 43504; 43600;
   44016; 65296; 66720; 68912; 69734; 69872; 69942; 70096; 70384; 70736;
   70864; 71248; 71360; 71472; 71904; 72016; 72784; 73040; 73120; 92768;
   92864; 93008; 120782; 120792; 120802; 120812; 120822; 123200; 123632;
   125264; 130032]%N.

Definition Py_UNICODE_TODECIMAL (cp : N) : option N :=
  (λ s, cp - s)%N
    <$> head (filter (λ s, (s ≤ cp ∧ cp < s + 10)%N) decimal_starts).

Definition to_ascii_decimal_space (ch : string) : ascii :=
  match code_point ch with
  | Some cp =>
      if (cp <? 127)%N then ascii_of_N cp
      else if Py_UNICODE_ISSPACE cp then " "%char
      else
        match Py_UNICODE_TODECIMAL cp with
        | Some d => ascii_of_N (48 + d)
        | None => "?"%char
        end
  | None => "?"%char
  end.

(** [Py_ISSPACE], the whitespace that [PyLong_FromString] skips at both
    ends of the rewritten text. *)
Definition Py_ISSPACE (c : ascii) : bool :=
  let n := N_of_ascii c in (((9 <=? n) && (n <=? 13)) || (n =? 32))%N.

Fixpoint skip_spaces (s : string) : string :=
  match s with
  | String c s' => if Py_ISSPACE c then skip_spaces s' else s
  | EmptyString => EmptyString
  end.

Definition py_digit (c : ascii) : option Z :=
  let n := nat_of_ascii c in
  if ((48 <=? n)%nat && (n <=? 57)%nat) then Some (Z.of_nat (n - 48)) else None.

(** Decimal digits with single underscores between them; [after_digit]
    tells whether the previous character was a digit. *)
Fixpoint py_digits (s : string) (acc : Z) (after_digit : bool) : option Z :=
  match s with
  | EmptyString => if after_digit then Some acc else None
  | String c s' =>
      match py_digit c with
      | Some d => py_digits s' (10 * acc + d) true
      | None =>
          if bool_decide (c = "_"%char) && after_digit
          then py_digits s' acc false
          else None
      end
  end.

(** [int(s)]; [None] is [ValueError].  The limit on the number of digits
    ([sys.int_info.default_max_str_digits], 4300) is beyond the 4096
    characters of a message and the 64 bytes of callback data. *)
Definition py_int (s : string) : option Z :=
  let t := String.string_of_list_ascii (to_ascii_decimal_space <$> utf8_chars s) in
  match String.rev (skip_spaces (String.rev (skip_spaces t))) with
  | String "+" r => py_digits r 0 false
  | String "-" r => Z.opp <$> py_digits r 0 false
  | t' => py_digits t' 0 false
  end.

(** [x or ''] on an optional text column. *)
Definition or_empty (o : option string) : string :=
  match o with
  | Some (String c s) => String c s
  | _ => ""
  end.

(** ** The FSM context of an actor ([aiogram.fsm.context.FSMContext]) *)

Record FSMContext := mkCtx {
  fsm_state : option FsmState;
  fsm_data : gmap string string
}.

Definition set_state (st : FsmState) (ctx : FSMContext) : FSMContext :=
  mkCtx (Some st) (fsm_data ctx).

Definition update_data (key value : string) (ctx : FSMContext) : FSMContext :=
  mkCtx (fsm_state ctx) (<[key := value]> (fsm_data ctx)).

Definition clear (ctx : FSMContext) : FSMContext :=
  mkCtx None ∅.

Definition MAX_BOOKING_CAPACITY : Z := 50.

Definition msg_access_denied : string := "⛔️ Доступ запрещен".
Definition msg_capacity_not_positive : string :=
  "⚠️ Количество должно быть положительным числом. Попробуйте снова:".
Definition msg_capacity_not_number : string :=
  "⚠️ Введите корректное число или '-'. Попробуйте снова:".

(** ** Handlers that consult the allow-list

    [ADMIN_IDS] is read from the environment by [bot/config.py]. *)
Section Handlers.

Variable ADMIN_IDS : list Z.

Definition is_admin (uid : Z) : bool :=
  bool_decide (uid ∈ ADMIN_IDS).

(** [show_poll_results] of [polls.py]. *)
Definition show_poll_results (uid pid : Z) (db : Db) : Outcome :=
  match get_poll pid db with
  | None => Done [Alert msg_poll_not_found]
  | Some poll =>
      let results := get_poll_results pid db in
      let total_votes := sum_values results in
      let body :=
        if bool_decide (total_votes = 0) then inr NobodyVoted
        else
          match result_lines (options poll) results total_votes with
          | inr ls => inr (Lines ls total_votes)
          | inl e => inl e
          end in
      match body with
      | inl e => Raise e
      | inr b =>
          Done [ResultsMessage (question poll) b
                  (is_admin uid && poll_is_active poll);
                Ack]
      end
  end.

(** [start_add_activity] of [admin.py]. *)
Definition start_add_activity (uid : Z) (ctx : FSMContext)
    : list Event * FSMContext :=
  if negb (is_admin uid) then ([Alert msg_access_denied], ctx)
  else ([Prompt waiting_activity_name; Ack], set_state waiting_activity_name ctx).

(** [process_activity_name]. *)
Definition process_activity_name (uid : Z) (text : string) (ctx : FSMContext)
    : list Event * FSMContext :=
  if negb (is_admin uid) then ([], ctx)
  else ([Prompt waiting_activity_description],
        set_state waiting_activity_description
          (update_data "activity_name" text ctx)).

(** [process_activity_description]. *)
Definition process_activity_description (uid : Z) (text : string)
    (ctx : FSMContext) : list Event * FSMContext :=
  if negb (is_admin uid) then ([], ctx)
  else ([Prompt waiting_activity_datetime],
        set_state waiting_activity_datetime
          (update_data "activity_description" text ctx)).

(** [process_activity_datetime]. *)
Definition process_activity_datetime (uid : Z) (text : string)
    (ctx : FSMContext) : list Event * FSMContext :=
  if negb (is_admin uid) then ([], ctx)
  else ([Prompt waiting_activity_capacity],
        set_state waiting_activity_capacity
          (update_data "activity_datetime" text ctx)).

(** The "Parse capacity" block of [process_activity_capacity]: the
    capacity, or the text of the re-prompt sent before [return]. *)
Definition parse_capacity (text : string) : string + Z :=
  if bool_decide (strip text = "-") then inr MAX_BOOKING_CAPACITY
  else
    match py_int text with
    | Some capacity =>
        if bool_decide (capacity ≤ 0) then inl msg_capacity_not_positive
        else inr capacity
    | None => inl msg_capacity_not_number
    end.

(** [process_activity_capacity]: "Process activity capacity and create
    activity."  The router calls it for a text message of an actor whose
    FSM state is [waiting_activity_capacity]. *)
Definition process_activity_capacity (uid : Z) (text : string)
    (ctx : FSMContext) (db : Db) : Outcome * FSMContext * Db :=
  if negb (is_admin uid) then (Done [], ctx, db)
  else
    match parse_capacity text with
    | inl reprompt => (Done [Send reprompt], ctx, db)
    | inr capacity =>
        let data := fsm_data ctx in
        match data !! "activity_name" with
        | None => (Raise (KeyError "activity_name"), ctx, db)
        | Some nm =>
            match data !! "activity_description" with
            | None => (Raise (KeyError "activity_description"), ctx, db)
            | Some descr =>
                match data !! "activity_datetime" with
                | None => (Raise (KeyError "activity_datetime"), ctx, db)
                | Some dt =>
                    match add_activity nm descr dt capacity db with
                    | inr (_, db1) =>
                        (Done [ActivityCreated nm dt capacity], clear ctx, db1)
                    | inl e => (Raise e, ctx, db)
                    end
                end
            end
        end
    end.

(** The participant line of [show_activity_bookings]. *)
Definition participant_line (l : BookingListing) : string :=
  let nm := or_empty (l_first_name l) in
  let last := or_empty (l_last_name l) in
  let uname :=
    match l_username l with
    | Some (String c s) => "@" +:+ String c s
    | _ => ""
    end in
  nm +:+ " " +:+ last +:+ " " +:+ uname.

(** [enumerate(l, 1)]. *)
Definition enumerate_from_1 {A} (l : list A) : list (Z * A) :=
  imap (λ i x, (Z.of_nat i + 1, x)) l.

(** [show_activity_bookings]: the admin view of an activity. *)
Definition show_activity_bookings (uid aid : Z) (db : Db) : Outcome :=
  if negb (is_admin uid) then Done [Alert msg_access_denied]
  else
    let activity := get_activity aid db in
    let bookings := get_activity_bookings aid db in
    match activity with
    | None => Raise TypeError
    | Some act =>
        Done [AdminActivityView (name act) (Z.of_nat (length bookings))
                (max_capacity act)
                (prod_map id participant_line <$> enumerate_from_1 bookings);
              Ack]
    end.

Definition csv_row (il : Z * BookingListing) : CsvRow :=
  mkCsvRow il.1
    (or_empty (l_first_name il.2)) (or_empty (l_last_name il.2))
    (or_empty (l_username il.2))
    (b_user_id (l_booking il.2)) (booked_at (l_booking il.2)).

(** [export_bookings]: "Export bookings to CSV." *)
Definition export_bookings (uid aid : Z) (db : Db) : Outcome :=
  if negb (is_admin uid) then Done [Alert msg_access_denied]
  else
    let activity := get_activity aid db in
    let bookings := get_activity_bookings aid db in
    let rows := csv_row <$> enumerate_from_1 bookings in
    match activity with
    | None => Raise TypeError
    | Some act =>
        Done [Document (name act) rows (Z.of_nat (length bookings));
              Toast "✅ Файл отправлен"]
    end.

End Handlers.

(** ** Sequences of reservation calls *)

Inductive Op :=
| Book (now : string) (uid aid : Z)
| Cancel (uid aid : Z).

#[global] Instance Op_eq_dec : EqDecision Op.
Proof. solve_decision. Defined.

Definition step (db : Db) (op : Op) : Db :=
  match op with
  | Book now uid aid => (create_booking now uid aid db).2
  | Cancel uid aid => (cancel_booking uid aid db).2
  end.

Definition run (ops : list Op) (db : Db) : Db :=
  foldl step db ops.

(** ** [create_booking], statement by statement

    [create_booking] awaits its statements one by one on a connection of
    its own and opens no transaction around them: between two of them the
    event loop may resume another coroutine.  A coroutine inside
    [create_booking] is before its SELECT COUNT, before its SELECT
    max_capacity with the count it has read, before its INSERT (and
    commit) once the comparison has let it pass, or has returned. *)
Inductive BookingPoint :=
| AtCount
| AtCapacity (current_count : Z)
| AtInsert
| Returned (success : bool).

Record Coroutine := mkCoroutine {
  co_now : string;
  co_user : Z;
  co_activity : Z;
  co_at : BookingPoint
}.

(** A call of [create_booking] that has not run yet. *)
Definition booking_call (now : string) (uid aid : Z) : Coroutine :=
  mkCoroutine now uid aid AtCount.

(** The coroutine runs up to its next await. *)
Definition resume (co : Coroutine) (db : Db) : Coroutine * Db :=
  let at_point p := mkCoroutine (co_now co) (co_user co) (co_activity co) p in
  match co_at co with
  | AtCount =>
      (at_point (AtCapacity (get_booking_count (co_activity co) db)), db)
  | AtCapacity current_count =>
      match activities db !! co_activity co with
      | None => (at_point (Returned false), db)
      | Some row =>
          if bool_decide (max_capacity row ≤ current_count)
          then (at_point (Returned false), db)
          else (at_point AtInsert, db)
      end
  | AtInsert =>
      match insert_booking (co_now co) (co_user co) (co_activity co) db with
      | Some db' => (at_point (Returned true), db')
      | None => (at_point (Returned false), db)
      end
  | Returned _ => (co, db)
  end.

(** The event loop: [schedule] names, step by step, the coroutine that is
    resumed. *)
Fixpoint event_loop (schedule : list nat) (cos : list Coroutine) (db : Db)
    : list Coroutine * Db :=
  match schedule with
  | [] => (cos, db)
  | i :: rest =>
      match cos !! i with
      | Some co =>
          let '(co', db') := resume co db in
          event_loop rest (<[i := co']> cos) db'
      | None => event_loop rest cos db
      end
  end.

(** UNIQUE(user_id, activity_id) as a property of the table: at most one
    row per pair. *)
Definition unique_bookings (db : Db) : Prop :=
  ∀ uid aid,
    (length (filter (booking_matches uid aid) (bookings db)) ≤ 1)%nat.

(** ** Histories of the database

    Every method of [Database] that writes, as a call; a history is a
    sequence of such calls on the database created by [init_db]. *)

Inductive Call :=
| Reservation (op : Op)
| AddUser (uid : Z) (uname fname lname : option string) (adm : bool)
| AddActivity (nm descr dt : string) (cap : Z)
| CreatePoll (q : string) (opts : list string)
| VotePoll (now : string) (pid uid idx : Z)
| ClosePoll (pid : Z).

Definition exec (db : Db) (c : Call) : Db :=
  match c with
  | Reservation op => step db op
  | AddUser uid uname fname lname adm => add_user uid uname fname lname adm db
  | AddActivity nm descr dt cap =>
      match add_activity nm descr dt cap db with
      | inr (_, db') => db'
      | inl _ => db
      end
  | CreatePoll q opts => (create_poll q opts db).2
  | VotePoll now pid uid idx => (vote_poll now pid uid idx db).2
  | ClosePoll pid => close_poll pid db
  end.

Definition history (calls : list Call) : Db :=
  foldl exec empty_db calls.

(** The capacity passed to [add_activity] is not negative (the form of
    [admin.py] passes 50 or a positive integer). *)
Definition call_ok (c : Call) : Prop :=
  match c with
  | AddActivity _ _ _ cap => 0 ≤ cap
  | _ => True
  end.

(** What a history maintains: activity keys come from the AUTOINCREMENT
    counter, bookings refer to existing activities, and every activity
    is within its capacity. *)
Definition store_ok (db : Db) : Prop :=
  (∀ k, is_Some (activities db !! k) → k ≤ seq_activities db) ∧
  (∀ b, b ∈ bookings db → is_Some (activities db !! b_activity_id b)) ∧
  (∀ a row, activities db !! a = Some row →
            get_booking_count a db ≤ max_capacity row).

(** ** Reading the tally and the results message *)

(** The number of rows of [l] that chose option [i]. *)
Definition votes_for (i : Z) (l : list Vote) : Z :=
  Z.of_nat (length (filter (λ v, option_index v = i) l)).

(** The rows of [poll_votes] cast in a poll, and those cast there for
    option [i]. *)
Definition rows_of (pid : Z) (db : Db) : Z :=
  Z.of_nat (length (filter (λ v, v_poll_id v = pid) (poll_votes db))).

Definition rows_for (pid i : Z) (db : Db) : Z :=
  Z.of_nat (length (filter (λ v, v_poll_id v = pid ∧ option_index v = i)
                      (poll_votes db))).

(** [votes / total * 100] in binary64. *)
Definition binary64_percent (votes total : Z) : spec_float :=
  SFmul 53 1024 (SFdiv 53 1024 (float_of_int votes) (float_of_int total))
    (float_of_int 100).

(** The line that [show_poll_results] writes for option [o] at position
    [i] of a poll with votes. *)
Definition line_at (pid : Z) (db : Db) (i : nat) (o : string) : ResultLine :=
  mkLine o (rows_for pid (Z.of_nat i) db)
    (binary64_percent (rows_for pid (Z.of_nat i) db) (rows_of pid db)).

(** ** Sample data *)

Definition sample_db : Db :=
  exec empty_db (AddActivity "Workshop" "AI" "15 Nov, 11:00" 2).

Definition sample_poll_db : Db :=
  (create_poll "Q" ["A"; "B"] empty_db).2.

(** The session of administrator 1 after the first three steps of the
    activity form. *)
Definition sample_ctx : FSMContext :=
  let ctx1 := (start_add_activity [1] 1 (mkCtx None ∅)).2 in
  let ctx2 := (process_activity_name [1] 1 "Workshop" ctx1).2 in
  let ctx3 := (process_activity_description [1] 1 "AI" ctx2).2 in
  (process_activity_datetime [1] 1 "15 Nov, 11:00" ctx3).2.

(** Actor 7 has sent /start, actor 8 has not; both hold a booking. *)
Definition sample_listing_db : Db :=
  run [Book "t1" 7 1; Book "t2" 8 1]
    (add_user 7 (Some "ann") (Some "Ann") None false sample_db).

(** * The rest of the store, the keyboards and the other handlers

    The reads of [Database] not used above, the keyboards of
    [bot/keyboards.py], and the handlers taken from the raw callback data:
    here the data is split at "_" and its numbers are parsed as the
    handlers do it. *)

(** ** Python text: [str(n)], [s.split(sep)], [s.startswith(p)] *)

(** [str(n)] and [f"{n}"] for an integer: decimal digits, with a leading
    "-" for a negative number. *)
Definition py_str (n : Z) : string :=
  DecimalString.NilEmpty.string_of_int (Z.to_int n).

(** [s.split(sep)] for a separator of one character. *)
Fixpoint py_split (sep : ascii) (s : string) : list string :=
  match s with
  | EmptyString => [EmptyString]
  | String c s' =>
      if bool_decide (c = sep) then EmptyString :: py_split sep s'
      else
        match py_split sep s' with
        | p :: ps => String c p :: ps
        | [] => [String c EmptyString]
        end
  end.

(** ** Reads of [Database] *)

(** [get_all_users]: SELECT * FROM users.  No ORDER BY here either, nor
    in [get_activities] and [get_active_polls]: the lists are one
    enumeration of the rows. *)
Definition get_all_users (db : Db) : list User :=
  (map_to_list (users db)).*2.

(** [get_activities]: SELECT * FROM activities, with WHERE is_active = 1
    when [active_only]. *)
Definition get_activities (active_only : bool) (db : Db) : list Activity :=
  let rows := (map_to_list (activities db)).*2 in
  if active_only then filter (λ a, is_active a = true) rows else rows.

(** A row of [get_user_bookings]: the booking columns and the name,
    description and date of its activity. *)
Record UserBooking := mkUserBooking {
  ub_booking : Booking;
  ub_name : string;
  ub_description : string;
  ub_date_time : string
}.

(** [get_user_bookings]: bookings b JOIN activities a ON b.activity_id =
    a.activity_id WHERE b.user_id = ?.  The query has no ORDER BY: the
    list is one enumeration of the rows, and what is proved of it below
    depends on no order. *)
Definition get_user_bookings (uid : Z) (db : Db) : list UserBooking :=
  omap (λ b,
          match activities db !! b_activity_id b with
          | Some a => Some (mkUserBooking b (name a) (description a) (date_time a))
          | None => None
          end)
       (filter (λ b, b_user_id b = uid) (bookings db)).

(** [get_active_polls]: SELECT * FROM polls WHERE is_active = 1. *)
Definition get_active_polls (db : Db) : list Poll :=
  filter (λ p, poll_is_active p = true) (map_to_list (polls db)).*2.

(** ** [bot/keyboards.py] *)

Record Button := mkButton {
  btn_text : string;
  btn_data : string
}.

#[global] Instance Button_eq_dec : EqDecision Button.
Proof. solve_decision. Defined.

(** An inline keyboard: rows of buttons. *)
Abbreviation Keyboard := (list (list Button)).


(** [get_activity_actions_keyboard]. *)
Definition get_activity_actions_keyboard (aid : Z) (is_booked is_full : bool)
    : Keyboard :=
  (if is_booked then
     [[mkButton "❌ Отменить запись" ("cancel_" +:+ py_str aid)]]
   else if negb is_full then
     [[mkButton "✅ Записаться" ("book_" +:+ py_str aid)]]
   else [])
  ++ [[mkButton "🔙 Назад к списку" "back_to_activities"]].

(** [get_my_bookings_keyboard]. *)
Definition get_my_bookings_keyboard (bs : list UserBooking) : Keyboard :=
  let buttons :=
    (λ booking,
       [mkButton ("❌ " +:+ ub_name booking)
                 ("cancel_" +:+ py_str (b_activity_id (ub_booking booking)))])
      <$> bs in
  match buttons with
  | [] => [[mkButton "📝 Записаться на активности" "show_activities"]]
  | _ :: _ => buttons
  end.

(** [get_admin_activities_keyboard]. *)
Definition get_admin_activities_keyboard (acts : list Activity) : Keyboard :=
  ((λ activity,
      [mkButton (name activity)
                ("admin_activity_" +:+ py_str (activity_id activity))]) <$> acts)
  ++ [[mkButton "🔙 Назад" "back_to_admin"]].

(** [get_activity_export_keyboard]. *)
Definition get_activity_export_keyboard (aid : Z) : Keyboard :=
  [[mkButton "📥 Экспорт списка" ("export_" +:+ py_str aid)];
   [mkButton "🔙 Назад" "admin_bookings"]].

(** [get_poll_keyboard]. *)
Definition get_poll_keyboard (pid : Z) (opts : list string) : Keyboard :=
  ((λ io : Z * string,
      [mkButton io.2 ("vote_" +:+ py_str pid +:+ "_" +:+ py_str io.1)])
     <$> enumerate opts)
  ++ [[mkButton "📊 Результаты" ("poll_results_" +:+ py_str pid)]].

(** [get_cancel_keyboard]. *)
Definition get_cancel_keyboard : Keyboard :=
  [[mkButton "❌ Отмена" "cancel_operation"]].

(** [get_back_to_admin_keyboard]. *)
Definition get_back_to_admin_keyboard : Keyboard :=
  [[mkButton "🔙 В админ-панель" "back_to_admin"]].

(** [get_admin_panel_keyboard]. *)
Definition get_admin_panel_keyboard : Keyboard :=
  [[mkButton "📢 Рассылка уведомлений" "admin_broadcast"];
   [mkButton "📊 Создать опрос" "admin_create_poll"];
   [mkButton "📝 Управление записями" "admin_bookings"];
   [mkButton "➕ Добавить активность" "admin_add_activity"];
   [mkButton "📋 Список участников" "admin_users_list"]].


(** ** What the other handlers send

    [RAlert] and [RAck] are the two forms of [callback.answer]; [RMessage]
    is [message.answer] ([edit] false) or [message.edit_text] ([edit]
    true) with the text template named by its body and the inline
    keyboard, the empty keyboard standing for none; [RDetails] is a call
    made by [show_activity_details]; [RSendTo] is one attempt of the
    fan-out loops to reach a user and whether it went through. *)

Inductive Body :=
| BText (text : string)
| BActivitiesMenu
| BNoBookings
| BMyBookings (items : list (string * string))
| BAdminPanel
| BAdminBookings
| BUsersList (total : Z) (lines : list (Z * string)) (more : option Z)
| BBroadcastPrompt
| BBroadcastStart (n : Z)
| BBroadcastDone (success_count failed_count : Z)
| BPollPrompt (step : FsmState)
| BPollSending (n : Z)
| BPollSent (success_count failed_count : Z)
| BPollClosedMark
| BWelcome (first_name : option string) (admin_menu : bool).

Inductive Reply :=
| RAlert (text : string)
| RToast (text : string)
| RAck
| RMessage (edit : bool) (body : Body) (kb : Keyboard)
| RDetails (e : Event)
| RSendTo (chat_id : Z) (delivered : bool).

Inductive Result :=
| Replied (rs : list Reply)
| Raised (e : PyExn).

(** The two ways [int(callback.data.split("_")[k])] fails: [IndexError]
    of the subscript and [ValueError] of [int]. *)
Inductive ParseExn :=
| NoSuchPart
| NotAnInt.

(** [int(callback.data.split("_")[k])]. *)
Definition callback_int (k : nat) (data : string) : ParseExn + Z :=
  match py_split "_" data !! k with
  | None => inl NoSuchPart
  | Some part =>
      match py_int part with
      | Some n => inr n
      | None => inl NotAnInt
      end
  end.

(** ** [bot/handlers/booking.py], from the callback data *)

Definition msg_cancelled : string := "✅ Запись отменена".
Definition msg_cancel_failed : string := "⚠️ Не удалось отменить запись".



(** The keyboard that [show_activity_details] attaches to its view. *)
Definition details_keyboard (uid aid : Z) (db : Db) : option Keyboard :=
  match get_activity aid db with
  | None => None
  | Some activity =>
      let is_booked := is_user_booked uid aid db in
      let booking_count := get_booking_count aid db in
      let is_full := bool_decide (max_capacity activity ≤ booking_count) in
      Some (get_activity_actions_keyboard aid is_booked is_full)
  end.

(** The handler registered for data starting with "book_". *)
Definition on_book (now : string) (uid : Z) (data : string) (db : Db)
    : ParseExn + (list Event * Db) :=
  match callback_int 1 data with
  | inl e => inl e
  | inr aid => inr (book_activity now uid aid db)
  end.

(** [show_my_bookings]. *)
Definition show_my_bookings (via_callback : bool) (uid : Z) (db : Db)
    : list Reply :=
  let bs := get_user_bookings uid db in
  match bs with
  | [] =>
      if via_callback then [RMessage false BNoBookings []; RAck]
      else [RMessage false BNoBookings []]
  | _ :: _ =>
      let body := BMyBookings ((λ b, (ub_name b, ub_date_time b)) <$> bs) in
      let keyboard := get_my_bookings_keyboard bs in
      if via_callback then [RMessage true body keyboard; RAck]
      else [RMessage false body keyboard]
  end.

(** [cancel_booking] of [booking.py], registered for data starting with
    "cancel_".  [on_activity_page] is the test [callback.message and
    "Записано:" in callback.message.text]. *)
Definition cancel_booking_handler (on_activity_page : bool) (uid : Z)
    (data : string) (db : Db) : list Reply * Db :=
  let parts := py_split "_" data in
  if bool_decide (length parts < 2)%nat then ([], db)
  else
    match parts !! 1%nat with
    | None => ([], db)
    | Some part =>
        match py_int part with
        | None => ([], db)
        | Some aid =>
            let '(success, db1) := cancel_booking uid aid db in
            if success then
              (RAlert msg_cancelled ::
                 (if on_activity_page
                  then RDetails <$> show_activity_details uid aid db1
                  else show_my_bookings true uid db1),
               db1)
            else ([RAlert msg_cancel_failed], db1)
        end
    end.

(** ** [bot/handlers/polls.py], from the callback data *)

(** The handler registered for data starting with "vote_". *)
Definition on_vote (now : string) (uid : Z) (data : string) (db : Db)
    : ParseExn + (Outcome * Db) :=
  match callback_int 1 data with
  | inl e => inl e
  | inr pid =>
      match callback_int 2 data with
      | inl e => inl e
      | inr idx => inr (vote_in_poll now pid uid idx db)
      end
  end.


(** ** Handlers of [user.py], [admin.py] and [polls.py] behind the
    allow-list *)

(** The fan-out loop of [process_broadcast] and [process_poll_options]:
    one attempt per user, counted as success or failure; [delivers] tells
    for each chat whether the send raises. *)
Fixpoint fan_out_loop (delivers : Z → bool) (us : list User)
    (rs : list Reply) (success_count failed_count : Z)
    : list Reply * Z * Z :=
  match us with
  | [] => (rs, success_count, failed_count)
  | user :: us' =>
      if delivers (user_id user)
      then fan_out_loop delivers us' (rs ++ [RSendTo (user_id user) true])
             (success_count + 1) failed_count
      else fan_out_loop delivers us' (rs ++ [RSendTo (user_id user) false])
             success_count (failed_count + 1)
  end.

Definition fan_out (delivers : Z → bool) (us : list User)
    : list Reply * Z * Z :=
  fan_out_loop delivers us [] 0 0.

(** [options = [opt.strip() for opt in message.text.split('\n') if
    opt.strip()]]. *)
Definition parse_options (text : string) : list string :=
  strip <$> filter (λ opt, strip opt ≠ "") (py_split "010" text).

Definition msg_no_admin_access : string :=
  "⛔️ У вас нет доступа к админ-панели".
Definition msg_operation_cancelled : string := "❌ Операция отменена".
Definition msg_min_options : string :=
  "⚠️ Необходимо минимум 2 варианта ответа. Попробуйте снова:".
Definition msg_max_options : string :=
  "⚠️ Максимум 10 вариантов ответа. Попробуйте снова:".
Definition msg_poll_closed : string := "✅ Опрос закрыт".
Definition msg_no_admin_activities : string := "📝 Нет доступных активностей".

Section MoreHandlers.

Variable ADMIN_IDS : list Z.

(** [cmd_start] of [user.py]: registers the user and greets, with the
    admin menu for an administrator and the main menu otherwise. *)
Definition cmd_start (uid : Z) (uname fname lname : option string) (db : Db)
    : list Reply * Db :=
  let adm := bool_decide (uid ∈ ADMIN_IDS) in
  let db1 := add_user uid uname fname lname adm db in
  ([RMessage false (BWelcome fname adm) []], db1).

(** [show_admin_panel]. *)
Definition show_admin_panel (uid : Z) : list Reply :=
  if negb (is_admin ADMIN_IDS uid)
  then [RMessage false (BText msg_no_admin_access) []]
  else [RMessage false BAdminPanel get_admin_panel_keyboard].

(** [back_to_admin]. *)
Definition back_to_admin (uid : Z) (ctx : FSMContext)
    : list Reply * FSMContext :=
  if negb (is_admin ADMIN_IDS uid) then ([RAlert msg_access_denied], ctx)
  else ([RMessage true BAdminPanel get_admin_panel_keyboard; RAck], clear ctx).

(** [cancel_operation]; [edit_fails] tells whether [edit_text] raises. *)
Definition cancel_operation (edit_fails : bool) (uid : Z) (ctx : FSMContext)
    : list Reply * FSMContext :=
  if negb (is_admin ADMIN_IDS uid) then ([RAlert msg_access_denied], ctx)
  else if edit_fails then
    ([RToast msg_operation_cancelled;
      RMessage false BAdminPanel get_admin_panel_keyboard], clear ctx)
  else
    ([RMessage true BAdminPanel get_admin_panel_keyboard;
      RToast msg_operation_cancelled], clear ctx).

(** [start_broadcast]. *)
Definition start_broadcast (uid : Z) (ctx : FSMContext)
    : list Reply * FSMContext :=
  if negb (is_admin ADMIN_IDS uid) then ([RAlert msg_access_denied], ctx)
  else ([RMessage true BBroadcastPrompt get_cancel_keyboard; RAck],
        set_state waiting_broadcast_message ctx).

(** [process_broadcast]. *)
Definition process_broadcast (delivers : Z → bool) (uid : Z)
    (ctx : FSMContext) (db : Db) : list Reply * FSMContext :=
  if negb (is_admin ADMIN_IDS uid) then ([], ctx)
  else
    let us := get_all_users db in
    let '(sends, success_count, failed_count) := fan_out delivers us in
    ([RMessage false (BBroadcastStart (Z.of_nat (length us))) []]
       ++ sends
       ++ [RMessage false (BBroadcastDone success_count failed_count)
             get_back_to_admin_keyboard],
     clear ctx).

(** [show_admin_bookings]. *)
Definition show_admin_bookings (uid : Z) (ctx : FSMContext) (db : Db)
    : list Reply * FSMContext :=
  if negb (is_admin ADMIN_IDS uid) then ([RAlert msg_access_denied], ctx)
  else
    let acts := get_activities true db in
    match acts with
    | [] =>
        ([RMessage true (BText msg_no_admin_activities)
            get_back_to_admin_keyboard; RAck], clear ctx)
    | _ :: _ =>
        ([RMessage true BAdminBookings (get_admin_activities_keyboard acts);
          RAck], clear ctx)
    end.

(** The line of a user in [show_users_list]. *)
Definition user_line (u : User) : string :=
  let nm := or_empty (first_name u) in
  let uname :=
    match username u with
    | Some (String c s) => "@" +:+ String c s
    | _ => ""
    end in
  nm +:+ " " +:+ uname.

(** [show_users_list]: at most 50 users are written out. *)
Definition show_users_list (uid : Z) (ctx : FSMContext) (db : Db)
    : list Reply * FSMContext :=
  if negb (is_admin ADMIN_IDS uid) then ([RAlert msg_access_denied], ctx)
  else
    let us := get_all_users db in
    let total := Z.of_nat (length us) in
    let lines := prod_map id user_line <$> enumerate_from_1 (take 50 us) in
    let more := if bool_decide (50 < total) then Some (total - 50) else None in
    ([RMessage true (BUsersList total lines more) get_back_to_admin_keyboard;
      RAck], clear ctx).

(** [start_create_poll] of [polls.py]. *)
Definition start_create_poll (uid : Z) (ctx : FSMContext)
    : list Reply * FSMContext :=
  if negb (is_admin ADMIN_IDS uid) then ([RAlert msg_access_denied], ctx)
  else ([RMessage true (BPollPrompt waiting_question) get_cancel_keyboard; RAck],
        set_state waiting_question ctx).

(** [process_poll_question]. *)
Definition process_poll_question (uid : Z) (text : string) (ctx : FSMContext)
    : list Reply * FSMContext :=
  if negb (is_admin ADMIN_IDS uid) then ([], ctx)
  else ([RMessage false (BPollPrompt waiting_options) get_cancel_keyboard],
        set_state waiting_options (update_data "poll_question" text ctx)).

(** [process_poll_options]: "Process poll options and create poll." *)
Definition process_poll_options (delivers : Z → bool) (uid : Z)
    (text : string) (ctx : FSMContext) (db : Db)
    : Result * FSMContext * Db :=
  if negb (is_admin ADMIN_IDS uid) then (Replied [], ctx, db)
  else
    let opts := parse_options text in
    if bool_decide (length opts < 2)%nat then
      (Replied [RMessage false (BText msg_min_options) []], ctx, db)
    else if bool_decide (10 < length opts)%nat then
      (Replied [RMessage false (BText msg_max_options) []], ctx, db)
    else
      match fsm_data ctx !! "poll_question" with
      | None => (Raised (KeyError "poll_question"), ctx, db)
      | Some q =>
          let '(pid, db1) := create_poll q opts db in
          let us := get_all_users db1 in
          let '(sends, success_count, failed_count) := fan_out delivers us in
          (Replied
             ([RMessage false (BPollSending (Z.of_nat (length us))) []]
                ++ sends
                ++ [RMessage false (BPollSent success_count failed_count)
                      get_back_to_admin_keyboard]),
           clear ctx, db1)
      end.

(** [close_poll_handler]: "Close a poll (admin only)." *)
Definition close_poll_handler (uid : Z) (data : string) (db : Db)
    : ParseExn + (list Reply * Db) :=
  if negb (is_admin ADMIN_IDS uid) then inr ([RAlert msg_access_denied], db)
  else
    match callback_int 2 data with
    | inl e => inl e
    | inr pid =>
        inr ([RAlert msg_poll_closed; RMessage true BPollClosedMark []],
             close_poll pid db)
    end.

(** The handler registered for data starting with "poll_results_". *)
Definition on_poll_results (uid : Z) (data : string) (db : Db)
    : ParseExn + Outcome :=
  match callback_int 2 data with
  | inl e => inl e
  | inr pid => inr (show_poll_results ADMIN_IDS uid pid db)
  end.

(** The handler registered for data starting with "admin_activity_". *)
Definition on_admin_activity (uid : Z) (data : string) (db : Db)
    : ParseExn + Outcome :=
  if negb (is_admin ADMIN_IDS uid) then inr (Done [Alert msg_access_denied])
  else
    match callback_int 2 data with
    | inl e => inl e
    | inr aid => inr (show_activity_bookings ADMIN_IDS uid aid db)
    end.

(** The handler registered for data starting with "export_". *)
Definition on_export (uid : Z) (data : string) (db : Db)
    : ParseExn + Outcome :=
  if negb (is_admin ADMIN_IDS uid) then inr (Done [Alert msg_access_denied])
  else
    match callback_int 1 data with
    | inl e => inl e
    | inr aid => inr (export_bookings ADMIN_IDS uid aid db)
    end.

End MoreHandlers.


(** ** Predicates used to state the properties below *)

(** A text of ASCII characters below 127, none of them whitespace. *)
Fixpoint plain (s : string) : Prop :=
  match s with
  | EmptyString => True
  | String c s' =>
      (N_of_ascii c < 127)%N ∧ Py_UNICODE_ISSPACE (N_of_ascii c) = false
      ∧ plain s'
  end.

(** The value of a digit sequence read after [acc]. *)
Fixpoint uint_value (d : Decimal.uint) (acc : Z) : Z :=
  match d with
  | Decimal.Nil => acc
  | Decimal.D0 d => uint_value d (10 * acc)
  | Decimal.D1 d => uint_value d (10 * acc + 1)
  | Decimal.D2 d => uint_value d (10 * acc + 2)
  | Decimal.D3 d => uint_value d (10 * acc + 3)
  | Decimal.D4 d => uint_value d (10 * acc + 4)
  | Decimal.D5 d => uint_value d (10 * acc + 5)
  | Decimal.D6 d => uint_value d (10 * acc + 6)
  | Decimal.D7 d => uint_value d (10 * acc + 7)
  | Decimal.D8 d => uint_value d (10 * acc + 8)
  | Decimal.D9 d => uint_value d (10 * acc + 9)
  end.

(** No character of the text is the separator. *)
Fixpoint no_char (sep : ascii) (s : string) : Prop :=
  match s with
  | EmptyString => True
  | String c s' => c ≠ sep ∧ no_char sep s'
  end.

(** Every activity row sits under its own [activity_id] and is active:
    what [add_activity] writes and nothing later changes. *)
Definition rows_ok (db : Db) : Prop :=
  ∀ k a, activities db !! k = Some a → activity_id a = k ∧ is_active a = true.


(** UNIQUE(poll_id, user_id) as a property of the table. *)
Definition unique_votes (db : Db) : Prop :=
  ∀ pid uid,
    (length (filter (vote_matches pid uid) (poll_votes db)) ≤ 1)%nat.


(** The two action buttons of [get_activity_actions_keyboard]. *)
Definition book_button (aid : Z) : Button :=
  mkButton "✅ Записаться" ("book_" +:+ py_str aid).

Definition cancel_button (aid : Z) : Button :=
  mkButton "❌ Отменить запись" ("cancel_" +:+ py_str aid).

(** The button of option [opt] at position [i] in [get_poll_keyboard]. *)
Definition vote_button (pid : Z) (i : nat) (opt : string) : Button :=
  mkButton opt ("vote_" +:+ py_str pid +:+ "_" +:+ py_str (Z.of_nat i)).

(** A character as [utf8_chars] cuts it: a byte and the bytes that
    continue it. *)
Fixpoint inner (ch : string) : Prop :=
  match ch with
  | EmptyString => False
  | String c EmptyString => True
  | String c (String d _ as r) => joins c d = true ∧ inner r
  end.

(** The text [t] does not continue the character [ch]. *)
Fixpoint apart (ch t : string) : Prop :=
  match ch with
  | EmptyString => True
  | String c EmptyString =>
      match t with
      | String d _ => joins c d = false
      | EmptyString => True
      end
  | String _ r => apart r t
  end.

(** A list of characters that [utf8_chars] returns for their joined
    text. *)
Fixpoint good (l : list string) : Prop :=
  match l with
  | [] => True
  | ch :: l' => inner ch ∧ apart ch (joined l') ∧ good l'
  end.

(** The first character, if any, is not whitespace. *)
Definition head_ok (l : list string) : Prop :=
  match l with
  | [] => True
  | ch :: _ => is_py_space ch = false
  end.

(** A text as [strip] leaves it: no whitespace character at either end. *)
Definition trimmed (s : string) : Prop :=
  head_ok (utf8_chars s) ∧ head_ok (rev (utf8_chars s)).





(** A poll row with the active flag cleared, as [close_poll] leaves it. *)
Definition closed (p : Poll) : Poll :=
  mkPoll (poll_id p) (question p) (options p) false.

(** The actors of [us] ask, one after another, for a place in the
    activity. *)
Definition book_each (now : string) (aid : Z) (us : list Z) : list Op :=
  (λ uid, Book now uid aid) <$> us.

(** ** [bot/config.py] *)

(** [ADMIN_IDS = [int(id.strip()) for id in env.split(',') if
    id.strip()]], for the value [env] of the environment variable (the
    empty text when it is unset); [None] is the [ValueError] of [int]. *)
Definition parse_admin_ids (env : string) : option (list Z) :=
  mapM (λ id, py_int (strip id))
       (filter (λ id, strip id ≠ "") (py_split "," env)).

(** [int] and [str] convert at most 4300 digits
    ([sys.int_info.default_max_str_digits]). *)
Definition within_str_digits (n : Z) : Prop :=
  Z.abs n < 10 ^ 4300.

(** [sep.join(parts)]. *)
Fixpoint py_join (sep : ascii) (parts : list string) : string :=
  match parts with
  | [] => ""
  | [p] => p
  | p :: rest => p +:+ String sep (py_join sep rest)
  end.

(** * Properties *)

(** ** Rows selected by the WHERE clauses *)

Lemma with_bookings_same db :
  with_bookings db (bookings db) (seq_bookings db) = db.
Proof. by destruct db. Qed.

Lemma with_votes_same db :
  with_votes db (poll_votes db) (seq_votes db) = db.
Proof. by destruct db. Qed.

Lemma filter_none_id {A} (P : A → Prop) `{!∀ x, Decision (P x)} (l : list A) :
  filter P l = [] → filter (λ x, ¬ P x) l = l.
Proof.
  induction l as [|x l IH]; [done|].
  rewrite !filter_cons. destruct (decide (P x)) as [HP|HP]; [done|].
  intros Hnil. rewrite decide_True by done. by rewrite IH.
Qed.

Lemma filter_not_none {A} (P : A → Prop) `{!∀ x, Decision (P x)} (l : list A) :
  filter P (filter (λ x, ¬ P x) l) = [].
Proof.
  induction l as [|x l IH]; [done|].
  rewrite filter_cons. destruct (decide (¬ P x)) as [HP|HP]; [|done].
  rewrite filter_cons, decide_False by done. done.
Qed.

Lemma filter_filter_length {A} (P Q : A → Prop)
    `{!∀ x, Decision (P x)} `{!∀ x, Decision (Q x)} (l : list A) :
  (length (filter P (filter Q l)) ≤ length (filter P l))%nat.
Proof.
  induction l as [|x l IH]; [done|].
  rewrite !filter_cons.
  destruct (decide (Q x)), (decide (P x)); rewrite ?filter_cons; simpl;
    repeat case_decide; simpl; try done; lia.
Qed.

Lemma is_user_booked_false uid aid db :
  is_user_booked uid aid db = false ↔
  filter (booking_matches uid aid) (bookings db) = [].
Proof. unfold is_user_booked. by destruct (filter _ _). Qed.

Lemma is_user_booked_true uid aid db :
  is_user_booked uid aid db = true ↔
  ∃ b, b ∈ bookings db ∧ booking_matches uid aid b.
Proof.
  unfold is_user_booked.
  destruct (filter _ _) as [|b l] eqn:Hf.
  - split; [done|]. intros (b & Hb & Hm).
    assert (b ∈ filter (booking_matches uid aid) (bookings db)) as Hin
      by (apply list_elem_of_filter; done).
    rewrite Hf in Hin. inversion Hin.
  - split; [|done]. intros _. exists b.
    assert (b ∈ filter (booking_matches uid aid) (bookings db)) as Hin
      by (rewrite Hf; left).
    by apply list_elem_of_filter in Hin as [Hm Hb].
Qed.

Lemma count_after_insert now uid aid a db db' :
  insert_booking now uid aid db = Some db' →
  get_booking_count a db' =
  get_booking_count a db + (if decide (aid = a) then 1 else 0).
Proof.
  unfold insert_booking. destruct (is_user_booked uid aid db); [done|].
  intros [= <-]. unfold get_booking_count, bookings_of_activity. simpl.
  rewrite filter_app, length_app, filter_cons, filter_nil. simpl.
  destruct (decide (aid = a)); simpl; lia.
Qed.

Lemma insert_booking_rows now uid aid db db' :
  insert_booking now uid aid db = Some db' →
  is_user_booked uid aid db = false ∧
  bookings db' = bookings db ++ [mkBooking (seq_bookings db + 1) uid aid now] ∧
  activities db' = activities db ∧ users db' = users db ∧
  seq_activities db' = seq_activities db.
Proof.
  unfold insert_booking. destruct (is_user_booked uid aid db); [done|].
  by intros [= <-].
Qed.

(** What [create_booking] returns, by the branch taken. *)
Lemma insert_other_not_booked now uid aid db db' u a :
  insert_booking now uid aid db = Some db' →
  (u, a) ≠ (uid, aid) →
  is_user_booked u a db' = is_user_booked u a db.
Proof.
  intros (_ & Hrows & _)%insert_booking_rows Hne.
  unfold is_user_booked. rewrite Hrows, filter_app, filter_cons, filter_nil.
  rewrite decide_False; [by rewrite app_nil_r|].
  intros [Hu Ha]. simpl in *. congruence.
Qed.

Lemma create_booking_cases now uid aid db :
  (create_booking now uid aid db = (false, db) ∧
   (activities db !! aid = None ∨
    (∃ row, activities db !! aid = Some row ∧
            max_capacity row ≤ get_booking_count aid db) ∨
    is_user_booked uid aid db = true)) ∨
  (∃ row db', create_booking now uid aid db = (true, db') ∧
     activities db !! aid = Some row ∧
     get_booking_count aid db < max_capacity row ∧
     insert_booking now uid aid db = Some db').
Proof.
  unfold create_booking.
  destruct (activities db !! aid) as [row|] eqn:Hrow; [|left; auto].
  simpl. case_bool_decide as Hcap.
  - left. split; [done|]. right. left. eauto.
  - destruct (insert_booking now uid aid db) as [db'|] eqn:Hins.
    + right. exists row, db'. repeat split; try done. lia.
    + left. split; [done|]. right. right.
      unfold insert_booking in Hins.
      by destruct (is_user_booked uid aid db).
Qed.

Lemma step_activities db op : activities (step db op) = activities db.
Proof.
  destruct op as [now uid aid|uid aid]; simpl; [|done].
  destruct (create_booking_cases now uid aid db)
    as [[-> _]|(row & db' & -> & _ & _ & Hins)]; [done|].
  simpl. by apply insert_booking_rows in Hins as (_ & _ & -> & _).
Qed.

Lemma step_count_le db op a row :
  activities db !! a = Some row →
  get_booking_count a db ≤ max_capacity row →
  get_booking_count a (step db op) ≤ max_capacity row.
Proof.
  intros Hrow Hle. destruct op as [now uid aid|uid aid]; simpl.
  - destruct (create_booking_cases now uid aid db)
      as [[-> _]|(row' & db' & -> & Hrow' & Hlt & Hins)]; [done|].
    simpl. rewrite (count_after_insert _ _ _ a _ _ Hins).
    destruct (decide (aid = a)) as [->|]; [|lia].
    rewrite Hrow in Hrow'. injection Hrow' as <-. lia.
  - unfold get_booking_count, bookings_of_activity in *. simpl.
    pose proof (filter_filter_length (λ b, b_activity_id b = a)
                  (λ b, ¬ booking_matches uid aid b) (bookings db)).
    lia.
Qed.

Lemma step_bookings_exist db op :
  (∀ b, b ∈ bookings db → is_Some (activities db !! b_activity_id b)) →
  ∀ b, b ∈ bookings (step db op) →
       is_Some (activities (step db op) !! b_activity_id b).
Proof.
  intros Hex b. rewrite step_activities.
  destruct op as [now uid aid|uid aid]; simpl.
  - destruct (create_booking_cases now uid aid db)
      as [[-> _]|(row & db' & -> & Hrow & _ & Hins)]; [apply Hex|].
    simpl. apply insert_booking_rows in Hins as (_ & -> & _).
    intros [Hin|Hin]%elem_of_app; [by apply Hex|].
    apply list_elem_of_singleton in Hin as ->. simpl. eauto.
  - intros [_ Hin]%list_elem_of_filter. by apply Hex.
Qed.

Lemma step_seq_activities db op :
  seq_activities (step db op) = seq_activities db.
Proof.
  destruct op as [now uid aid|uid aid]; simpl; [|done].
  destruct (create_booking_cases now uid aid db)
    as [[-> _]|(row & db' & -> & _ & _ & Hins)]; [done|].
  simpl. by apply insert_booking_rows in Hins as (_ & _ & _ & _ & ->).
Qed.

Lemma no_booking_of_new_activity db :
  store_ok db →
  filter (λ b, b_activity_id b = seq_activities db + 1) (bookings db) = [].
Proof.
  intros (Hkeys & Hex & _).
  destruct (filter _ _) as [|b l] eqn:Hf; [done|].
  assert (b ∈ filter (λ b, b_activity_id b = seq_activities db + 1)
                (bookings db)) as Hin by (rewrite Hf; left).
  apply list_elem_of_filter in Hin as [Ha Hin].
  apply Hex, Hkeys in Hin. lia.
Qed.

Lemma exec_add_activity db nm descr dt cap :
  exec db (AddActivity nm descr dt cap)
  = if sqlite_int cap then (insert_activity nm descr dt cap db).2 else db.
Proof. simpl. unfold add_activity. by destruct (sqlite_int cap). Qed.

Lemma exec_ok db c : call_ok c → store_ok db → store_ok (exec db c).
Proof.
  intros Hc Hok. pose proof Hok as (Hkeys & Hex & Hcap).
  destruct c as [op|uid uname fname lname adm|nm descr dt cap|q opts
                |now pid uid idx|pid];
    rewrite ?exec_add_activity; try (destruct (sqlite_int cap); [|done]);
    simpl in *; try done.
  - split; [|split].
    + intros k. rewrite step_activities, step_seq_activities. apply Hkeys.
    + by apply step_bookings_exist.
    + intros a row. rewrite step_activities. intros Hrow.
      apply step_count_le; [done|by apply Hcap].
  - split; [|split]; simpl.
    + intros k Hk. destruct (decide (k = seq_activities db + 1)) as [->|Hne];
        [lia|].
      rewrite lookup_insert_ne in Hk by done. apply Hkeys in Hk. lia.
    + intros b Hin. apply lookup_insert_is_Some'. right. by apply Hex.
    + intros a row. unfold get_booking_count, bookings_of_activity. simpl.
      destruct (decide (a = seq_activities db + 1)) as [->|Hne].
      * rewrite lookup_insert_eq. intros [= <-]. simpl.
        by rewrite no_booking_of_new_activity.
      * rewrite lookup_insert_ne by done. apply Hcap.
  - unfold vote_poll, insert_vote. by destruct (has_voted pid uid db).
Qed.

Lemma history_ok calls : Forall call_ok calls → store_ok (history calls).
Proof.
  unfold history.
  assert (store_ok empty_db) as Hempty.
  { split; [|split]; simpl.
    - intros k [? Hk]. by rewrite lookup_empty in Hk.
    - intros b Hin. inversion Hin.
    - intros a row Hrow. by rewrite lookup_empty in Hrow. }
  revert Hempty. generalize empty_db as db.
  intros db Hdb Hcalls. revert db Hdb.
  induction Hcalls as [|c calls Hc _ IH]; intros db Hdb; [done|].
  simpl. by apply IH, exec_ok.
Qed.

Lemma full_create_booking now uid aid db row :
  activities db !! aid = Some row →
  max_capacity row ≤ get_booking_count aid db →
  create_booking now uid aid db = (false, db).
Proof.
  intros Hrow Hfull. unfold create_booking. rewrite Hrow. simpl.
  by rewrite bool_decide_eq_true_2.
Qed.

(** Whole calls, made one after another, keep every activity within its
    capacity: a [create_booking] call made while the count is at or above
    the ceiling returns [False] and leaves the database as it was; from a
    database in which the count is within the ceiling, after any finite
    sequence of whole [create_booking] and [cancel_booking] calls the
    count is still within the ceiling; and so it is for every activity of
    every database reached from the empty one by whole [Database] calls
    that pass no negative capacity to [add_activity]. *)
Lemma whole_calls_keep_capacity :
  (∀ db a row now uid,
     activities db !! a = Some row →
     max_capacity row ≤ get_booking_count a db →
     create_booking now uid a db = (false, db)) ∧
  (∀ db a row ops,
     activities db !! a = Some row →
     get_booking_count a db ≤ max_capacity row →
     activities (run ops db) !! a = Some row ∧
     get_booking_count a (run ops db) ≤ max_capacity row) ∧
  (∀ calls a row,
     Forall call_ok calls →
     activities (history calls) !! a = Some row →
     get_booking_count a (history calls) ≤ max_capacity row).
Proof.
  split; [|split].
  - intros db a row now uid Hrow Hfull. by eapply full_create_booking.
  - intros db a row ops. revert db.
    induction ops as [|op ops IH]; intros db Hrow Hle; [done|].
    simpl. apply IH.
    + by rewrite step_activities.
    + by apply step_count_le.
  - intros calls a row Hcalls. by apply history_ok.
Qed.

(** A coroutine that no other interrupts is the whole call. *)
Lemma create_booking_uninterrupted now uid aid db :
  event_loop [0; 0; 0]%nat [booking_call now uid aid] db
  = ([mkCoroutine now uid aid (Returned (create_booking now uid aid db).1)],
     (create_booking now uid aid db).2).
Proof.
  unfold create_booking, event_loop, booking_call, resume. simpl.
  destruct (activities db !! aid) as [row|]; simpl; [|done].
  destruct (bool_decide (max_capacity row ≤ get_booking_count aid db));
    simpl; [done|].
  by destruct (insert_booking now uid aid db).
Qed.

(** C1 fails on [create_booking] when two calls overlap.  The method
    reads the count, reads the capacity and inserts in three awaited
    statements with no transaction around them.  With one place left in
    an activity, when two distinct actors without a booking call it (ids
    that SQLite stores) and
    both calls read the count before either inserts, both calls return
    [True], both rows are stored, and the count ends one above the
    capacity. *)
Theorem overlapping_bookings_exceed_capacity now1 now2 u1 u2 aid row db :
  sqlite_int u1 = true → sqlite_int u2 = true → sqlite_int aid = true →
  activities db !! aid = Some row →
  get_booking_count aid db + 1 = max_capacity row →
  u1 ≠ u2 →
  is_user_booked u1 aid db = false →
  is_user_booked u2 aid db = false →
  ∃ db',
    event_loop [0; 1; 0; 1; 0; 1]%nat
      [booking_call now1 u1 aid; booking_call now2 u2 aid] db
    = ([mkCoroutine now1 u1 aid (Returned true);
        mkCoroutine now2 u2 aid (Returned true)], db') ∧
    activities db' !! aid = Some row ∧
    is_user_booked u1 aid db' = true ∧
    is_user_booked u2 aid db' = true ∧
    get_booking_count aid db' = max_capacity row + 1 ∧
    max_capacity row < get_booking_count aid db'.
Proof.
  intros _ _ _ Hrow Hleft Hne Hb1 Hb2.
  destruct (insert_booking now1 u1 aid db) as [db1|] eqn:Hins1;
    [|unfold insert_booking in Hins1; by rewrite Hb1 in Hins1].
  pose proof (insert_booking_rows _ _ _ _ _ Hins1) as (_ & Hrows1 & Hact1 & _).
  assert (is_user_booked u2 aid db1 = false) as Hb2'.
  { rewrite (insert_other_not_booked _ _ _ _ _ u2 aid Hins1); [done|].
    congruence. }
  destruct (insert_booking now2 u2 aid db1) as [db2|] eqn:Hins2;
    [|unfold insert_booking in Hins2; by rewrite Hb2' in Hins2].
  pose proof (insert_booking_rows _ _ _ _ _ Hins2) as (_ & Hrows2 & Hact2 & _).
  exists db2. unfold event_loop, booking_call, resume. simpl.
  do 2 (rewrite Hrow; simpl; rewrite bool_decide_eq_false_2 by lia; simpl).
  rewrite Hins1. simpl. rewrite Hins2.
  split; [done|]. split; [congruence|].
  pose proof (count_after_insert _ _ _ aid _ _ Hins1) as Hc1.
  pose proof (count_after_insert _ _ _ aid _ _ Hins2) as Hc2.
  rewrite decide_True in Hc1, Hc2 by done.
  split; [|split; [|lia]].
  - apply is_user_booked_true. exists (mkBooking (seq_bookings db + 1) u1 aid now1).
    split; [|done]. rewrite Hrows2, Hrows1. set_solver.
  - apply is_user_booked_true. exists (mkBooking (seq_bookings db1 + 1) u2 aid now2).
    split; [|done]. rewrite Hrows2. set_solver.
Qed.

(** Activity 1 has capacity 2 and holds the booking of actor 9; the calls
    of actors 7 and 8 overlap. *)
Lemma overlapping_bookings_exceed_capacity_witness :
  ∃ db',
    event_loop [0; 1; 0; 1; 0; 1]%nat
      [booking_call "t1" 7 1; booking_call "t2" 8 1]
      (run [Book "t0" 9 1] sample_db)
    = ([mkCoroutine "t1" 7 1 (Returned true);
        mkCoroutine "t2" 8 1 (Returned true)], db') ∧
    activities db' !! 1
    = Some (mkActivity 1 "Workshop" "AI" "15 Nov, 11:00" 2 true) ∧
    is_user_booked 7 1 db' = true ∧
    is_user_booked 8 1 db' = true ∧
    get_booking_count 1 db' = 2 + 1 ∧
    2 < get_booking_count 1 db'.
Proof.
  apply (overlapping_bookings_exceed_capacity "t1" "t2" 7 8 1
           (mkActivity 1 "Workshop" "AI" "15 Nov, 11:00" 2 true)
           (run [Book "t0" 9 1] sample_db)).
  - reflexivity.
  - reflexivity.
  - reflexivity.
  - vm_compute. reflexivity.
  - vm_compute. reflexivity.
  - lia.
  - vm_compute. reflexivity.
  - vm_compute. reflexivity.
Defined.

(** ** One booking per actor and activity *)

Lemma booked_create_booking now uid aid db :
  is_user_booked uid aid db = true →
  create_booking now uid aid db = (false, db).
Proof.
  intros Hb.
  destruct (create_booking_cases now uid aid db)
    as [[-> _]|(row & db' & _ & _ & _ & Hins)]; [done|].
  apply insert_booking_rows in Hins as (Hnb & _). congruence.
Qed.

Lemma booked_book_activity now uid aid db :
  is_user_booked uid aid db = true →
  book_activity now uid aid db = ([Alert msg_already_booked], db).
Proof.
  intros Hb. unfold book_activity.
  rewrite booked_create_booking by done. by rewrite Hb.
Qed.

Lemma created_is_booked now uid aid db db1 :
  create_booking now uid aid db = (true, db1) →
  is_user_booked uid aid db1 = true.
Proof.
  intros Hc.
  destruct (create_booking_cases now uid aid db)
    as [[Hf _]|(row & db' & Ht & _ & _ & Hins)]; [congruence|].
  rewrite Hc in Ht. injection Ht as <-.
  apply insert_booking_rows in Hins as (_ & Hrows & _).
  apply is_user_booked_true. eexists. rewrite Hrows. split.
  - apply elem_of_app. right. left.
  - done.
Qed.

Lemma step_keeps_booking db op uid aid :
  op ≠ Cancel uid aid →
  is_user_booked uid aid db = true →
  is_user_booked uid aid (step db op) = true.
Proof.
  intros Hop (b & Hin & Hm)%is_user_booked_true.
  apply is_user_booked_true. exists b. split; [|done].
  destruct op as [now u a|u a]; simpl.
  - destruct (create_booking_cases now u a db)
      as [[-> _]|(row & db' & -> & _ & _ & Hins)]; [done|].
    simpl. apply insert_booking_rows in Hins as (_ & -> & _).
    apply elem_of_app. by left.
  - apply list_elem_of_filter. split; [|done].
    intros [Hu Ha]. destruct Hm as [Hu' Ha']. apply Hop. congruence.
Qed.

Lemma run_keeps_booking ops db uid aid :
  Forall (λ op, op ≠ Cancel uid aid) ops →
  is_user_booked uid aid db = true →
  is_user_booked uid aid (run ops db) = true.
Proof.
  intros Hops. revert db.
  induction Hops as [|op ops Hop _ IH]; intros db Hb; [done|].
  simpl. apply IH. by apply step_keeps_booking.
Qed.

Lemma step_unique db op : unique_bookings db → unique_bookings (step db op).
Proof.
  intros Hu uid aid. destruct op as [now u a|u a]; simpl.
  - destruct (create_booking_cases now u a db)
      as [[-> _]|(row & db' & -> & _ & _ & Hins)]; [apply Hu|].
    simpl. apply insert_booking_rows in Hins as (Hnb & -> & _).
    rewrite filter_app, length_app, filter_cons, filter_nil.
    destruct (decide (booking_matches uid aid _)) as [[Hx Hy]|_]; simpl in *.
    + subst. apply is_user_booked_false in Hnb. by rewrite Hnb.
    + specialize (Hu uid aid). lia.
  - etrans; [apply filter_filter_length|apply Hu].
Qed.

Lemma run_unique ops db : unique_bookings db → unique_bookings (run ops db).
Proof.
  revert db. induction ops as [|op ops IH]; intros db Hu; [done|].
  simpl. by apply IH, step_unique.
Qed.

Lemma exec_unique db c : unique_bookings db → unique_bookings (exec db c).
Proof.
  intros Hu.
  destruct c as [op|uid uname fname lname adm|nm descr dt cap|q opts
                |now pid uid idx|pid];
    rewrite ?exec_add_activity; try (destruct (sqlite_int cap); [|done]);
    simpl; try done.
  - by apply step_unique.
  - unfold vote_poll, insert_vote. by destruct (has_voted pid uid db).
Qed.

Lemma history_unique calls : unique_bookings (history calls).
Proof.
  unfold history.
  assert (unique_bookings empty_db) as Hempty by (intros uid aid; simpl; lia).
  revert Hempty. generalize empty_db as db.
  induction calls as [|c calls IH]; intros db Hdb; [done|].
  simpl. by apply IH, exec_unique.
Qed.

(** C2. After a successful [create_booking] of an actor for an activity,
    and after any further calls other than that actor's own cancellation
    of it, a second booking call of the same pair fails: the store returns
    [False] and stays as it was, and [book_activity] answers "already
    registered".  No sequence of calls creates a duplicate row: a table
    with at most one row per (actor, activity) pair keeps that property,
    and every database reached from the empty one has it. *)
Theorem second_book_already_booked :
  (∀ now uid aid db db1 ops now',
     create_booking now uid aid db = (true, db1) →
     Forall (λ op, op ≠ Cancel uid aid) ops →
     create_booking now' uid aid (run ops db1) = (false, run ops db1) ∧
     book_activity now' uid aid (run ops db1)
       = ([Alert msg_already_booked], run ops db1)) ∧
  (∀ db ops, unique_bookings db → unique_bookings (run ops db)) ∧
  (∀ calls, unique_bookings (history calls)).
Proof.
  split; [|split].
  - intros now uid aid db db1 ops now' Hc Hops.
    assert (is_user_booked uid aid (run ops db1) = true) as Hb
      by (apply run_keeps_booking; [done|by eapply created_is_booked]).
    split; [by apply booked_create_booking|by apply booked_book_activity].
  - intros db ops. apply run_unique.
  - apply history_unique.
Qed.

Lemma second_book_already_booked_witness :
  let db1 := (create_booking "t1" 7 1 sample_db).2 in
  book_activity "t3" 7 1 (run [Book "t2" 8 1; Cancel 8 1] db1)
    = ([Alert msg_already_booked], run [Book "t2" 8 1; Cancel 8 1] db1) ∧
  unique_bookings (run [Book "t2" 7 1; Book "t3" 7 1] db1).
Proof.
  destruct second_book_already_booked as (Hsecond & Hrun & Hhist).
  split.
  - apply (Hsecond "t1" 7 1 sample_db _ [Book "t2" 8 1; Cancel 8 1] "t3").
    + vm_compute. reflexivity.
    + repeat constructor; discriminate.
  - apply Hrun.
    apply (Hhist [AddActivity "Workshop" "AI" "15 Nov, 11:00" 2;
                  Reservation (Book "t1" 7 1)]).
Defined.

(** ** Outcomes of a booking request *)

Lemma msgs_distinct :
  msg_booked ≠ msg_already_booked ∧ msg_booked ≠ msg_all_taken ∧
  msg_already_booked ≠ msg_all_taken.
Proof. repeat split; discriminate. Qed.

Lemma create_booking_true_iff now uid aid db :
  (create_booking now uid aid db).1 = true ↔
  (∃ row, activities db !! aid = Some row ∧
          get_booking_count aid db < max_capacity row) ∧
  is_user_booked uid aid db = false.
Proof.
  destruct (create_booking_cases now uid aid db)
    as [[Hf Hwhy]|(row & db' & Ht & Hrow & Hlt & Hins)].
  - rewrite Hf. simpl. split; [done|]. intros [(row & Hrow & Hlt) Hnb].
    destruct Hwhy as [Hnone|[(row' & Hrow' & Hfull)|Hb]]; [congruence| |congruence].
    rewrite Hrow in Hrow'. injection Hrow' as <-. lia.
  - rewrite Ht. simpl. split; [|done]. intros _. split; [eauto|].
    by apply insert_booking_rows in Hins as (Hnb & _).
Qed.

(** The claim C3 fails on [book_activity]: for actor 9, who holds no
    booking, the answer for the absent activity 5 and the answer for the
    full activity 1 are the same alert, and the store returns the same
    [False] for both. *)
Lemma absent_and_full_same_answer :
  let db := run [Book "t1" 7 1; Book "t2" 8 1] sample_db in
  activities db !! 5 = None ∧
  (∃ row, activities db !! 1 = Some row ∧
          max_capacity row ≤ get_booking_count 1 db) ∧
  is_user_booked 9 1 db = false ∧
  create_booking "t3" 9 5 db = create_booking "t3" 9 1 db ∧
  (book_activity "t3" 9 5 db).1 = (book_activity "t3" 9 1 db).1.
Proof.
  vm_compute. repeat split; try reflexivity.
  eexists. split; [reflexivity|]. simpl. discriminate.
Qed.

(** C3 (amended). [create_booking] returns a boolean: [True] exactly when
    the activity exists, its count is below its capacity and the actor
    holds no booking for it; for an absent activity it returns [False] and
    leaves the store as it was.  [book_activity] answers "booked" on
    [True]; after [False] it answers "already registered" when the actor
    holds a booking for the activity, and "all places taken" when the
    activity is full and the actor holds none.  The three answers are
    pairwise distinct texts. *)
Theorem book_activity_outcomes now uid aid db :
  ((create_booking now uid aid db).1 = true ↔
   (∃ row, activities db !! aid = Some row ∧
           get_booking_count aid db < max_capacity row) ∧
   is_user_booked uid aid db = false) ∧
  (activities db !! aid = None →
   create_booking now uid aid db = (false, db)) ∧
  ((create_booking now uid aid db).1 = true →
   head (book_activity now uid aid db).1 = Some (Alert msg_booked)) ∧
  (is_user_booked uid aid db = true →
   book_activity now uid aid db = ([Alert msg_already_booked], db)) ∧
  (∀ row,
     activities db !! aid = Some row →
     max_capacity row ≤ get_booking_count aid db →
     is_user_booked uid aid db = false →
     book_activity now uid aid db = ([Alert msg_all_taken], db)) ∧
  msg_booked ≠ msg_already_booked ∧ msg_booked ≠ msg_all_taken ∧
  msg_already_booked ≠ msg_all_taken.
Proof.
  split; [apply create_booking_true_iff|].
  split; [intros Hnone; unfold create_booking; by rewrite Hnone|].
  split.
  { unfold book_activity.
    destruct (create_booking now uid aid db) as [[] db1]; [done|discriminate]. }
  split; [apply booked_book_activity|].
  split; [|apply msgs_distinct].
  intros row Hrow Hfull Hnb. unfold book_activity.
  rewrite (full_create_booking now uid aid db row Hrow Hfull).
  by rewrite Hnb.
Qed.

Lemma book_activity_outcomes_witness :
  let db := run [Book "t1" 7 1; Book "t2" 8 1] sample_db in
  book_activity "t3" 7 1 db = ([Alert msg_already_booked], db) ∧
  book_activity "t3" 9 1 db = ([Alert msg_all_taken], db).
Proof.
  split.
  - apply (book_activity_outcomes "t3" 7 1
             (run [Book "t1" 7 1; Book "t2" 8 1] sample_db)).
    vm_compute. reflexivity.
  - apply (book_activity_outcomes "t3" 9 1
             (run [Book "t1" 7 1; Book "t2" 8 1] sample_db))
      with (row := mkActivity 1 "Workshop" "AI" "15 Nov, 11:00" 2 true).
    + vm_compute. reflexivity.
    + vm_compute. discriminate.
    + vm_compute. reflexivity.
Defined.

(** ** Cancellation *)

Lemma cancel_not_booked uid aid db :
  is_user_booked uid aid db = false →
  cancel_booking uid aid db = (false, db).
Proof.
  intros Hnb%is_user_booked_false. unfold cancel_booking.
  rewrite Hnb, (filter_none_id _ _ Hnb). simpl.
  by rewrite with_bookings_same.
Qed.

Lemma cancel_result uid aid db :
  (cancel_booking uid aid db).1 = is_user_booked uid aid db.
Proof.
  unfold cancel_booking, is_user_booked. simpl.
  destruct (filter _ _); [done|].
  apply bool_decide_eq_true_2. rewrite length_cons. lia.
Qed.

Lemma cancelled_not_booked uid aid db :
  is_user_booked uid aid (cancel_booking uid aid db).2 = false.
Proof.
  apply is_user_booked_false. simpl.
  apply (filter_not_none (booking_matches uid aid)).
Qed.

(** C4. [cancel_booking] for a pair without a booking returns [False] and
    leaves the database exactly as it was; whenever it returns [False] the
    database after the call is the database before it; and after a
    successful [create_booking], cancelling twice in a row returns [True]
    and then [False], the second call changing nothing. *)
Theorem cancel_booking_idempotent uid aid db :
  (is_user_booked uid aid db = false →
   cancel_booking uid aid db = (false, db)) ∧
  (∀ db', cancel_booking uid aid db = (false, db') → db' = db) ∧
  (∀ now db1,
     create_booking now uid aid db = (true, db1) →
     ∃ db2, cancel_booking uid aid db1 = (true, db2) ∧
            cancel_booking uid aid db2 = (false, db2)).
Proof.
  split; [apply cancel_not_booked|]. split.
  - intros db' Hc.
    assert (is_user_booked uid aid db = false) as Hnb
      by (rewrite <- cancel_result; by rewrite Hc).
    rewrite (cancel_not_booked _ _ _ Hnb) in Hc. congruence.
  - intros now db1 Hc. exists (cancel_booking uid aid db1).2. split.
    + rewrite (surjective_pairing (cancel_booking uid aid db1)) at 1.
      f_equal. rewrite cancel_result. by eapply created_is_booked.
    + apply cancel_not_booked, cancelled_not_booked.
Qed.

Lemma cancel_booking_idempotent_witness :
  cancel_booking 9 1 sample_db = (false, sample_db) ∧
  ∃ db2, cancel_booking 7 1 (create_booking "t1" 7 1 sample_db).2 = (true, db2) ∧
         cancel_booking 7 1 db2 = (false, db2).
Proof.
  split.
  - apply (cancel_booking_idempotent 9 1 sample_db). vm_compute. reflexivity.
  - apply (proj2 (proj2 (cancel_booking_idempotent 7 1 sample_db)) "t1").
    vm_compute. reflexivity.
Defined.

(** ** Book, cancel, book again *)

(** The claim C5, read on the whole cycle, fails: after book, cancel and
    book again the activity holds one booking more than before the first
    call. *)
Lemma cycle_count_is_one_more :
  ∃ db1 db2 db3,
    create_booking "t1" 7 1 sample_db = (true, db1) ∧
    cancel_booking 7 1 db1 = (true, db2) ∧
    create_booking "t2" 7 1 db2 = (true, db3) ∧
    get_booking_count 1 sample_db = 0 ∧
    get_booking_count 1 db3 = 1 ∧
    get_booking_count 1 db3 ≠ get_booking_count 1 sample_db.
Proof.
  exists (create_booking "t1" 7 1 sample_db).2.
  exists (cancel_booking 7 1 (create_booking "t1" 7 1 sample_db).2).2.
  exists (create_booking "t2" 7 1
            (cancel_booking 7 1 (create_booking "t1" 7 1 sample_db).2).2).2.
  vm_compute. repeat split; discriminate.
Qed.

Lemma cancel_after_insert now uid aid db db1 :
  insert_booking now uid aid db = Some db1 →
  bookings (cancel_booking uid aid db1).2 = bookings db ∧
  activities (cancel_booking uid aid db1).2 = activities db.
Proof.
  intros (Hnb & Hrows & Hact & _)%insert_booking_rows. simpl.
  rewrite Hrows, Hact. split; [|done].
  rewrite filter_app, filter_cons, filter_nil.
  rewrite decide_False by (intros Hn; by apply Hn).
  rewrite (filter_none_id (booking_matches uid aid)), app_nil_r; [done|].
  by apply is_user_booked_false.
Qed.

(** C5 (amended). After a successful [create_booking] of an actor for an
    activity, [cancel_booking] returns [True] and brings the activity's
    count back to its value before the booking; a second [create_booking]
    by the same actor then succeeds again, and the count after it equals
    the count after the first booking, one more than before the cycle. *)
Theorem book_cancel_book now1 now2 uid aid db db1 :
  create_booking now1 uid aid db = (true, db1) →
  ∃ db2 db3,
    cancel_booking uid aid db1 = (true, db2) ∧
    get_booking_count aid db2 = get_booking_count aid db ∧
    create_booking now2 uid aid db2 = (true, db3) ∧
    get_booking_count aid db3 = get_booking_count aid db1 ∧
    get_booking_count aid db1 = get_booking_count aid db + 1.
Proof.
  intros Hc.
  destruct (create_booking_cases now1 uid aid db)
    as [[Hf _]|(row & db' & Ht & Hrow & Hlt & Hins)]; [congruence|].
  rewrite Hc in Ht. injection Ht as <-.
  pose proof (cancel_after_insert _ _ _ _ _ Hins) as [Hrows2 Hact2].
  pose proof (count_after_insert _ _ _ aid _ _ Hins) as Hcount1.
  rewrite decide_True in Hcount1 by done.
  set (db2 := (cancel_booking uid aid db1).2) in *.
  assert (get_booking_count aid db2 = get_booking_count aid db) as Hcount2
    by (unfold get_booking_count, bookings_of_activity; by rewrite Hrows2).
  assert (create_booking now2 uid aid db2
          = (true, (create_booking now2 uid aid db2).2)) as Hc3.
  { rewrite (surjective_pairing (create_booking now2 uid aid db2)) at 1.
    f_equal. apply create_booking_true_iff. split.
    - exists row. rewrite Hact2, Hcount2. done.
    - apply cancelled_not_booked. }
  exists db2, (create_booking now2 uid aid db2).2.
  split; [|split; [done|split; [done|split; [|done]]]].
  - rewrite (surjective_pairing (cancel_booking uid aid db1)) at 1.
    f_equal. rewrite cancel_result. by eapply created_is_booked.
  - destruct (create_booking_cases now2 uid aid db2)
      as [[Hf _]|(row3 & db3 & Ht3 & _ & _ & Hins3)]; [congruence|].
    rewrite Ht3. simpl.
    rewrite (count_after_insert _ _ _ aid _ _ Hins3).
    rewrite decide_True by done. lia.
Qed.

Lemma book_cancel_book_witness :
  ∃ db2 db3,
    cancel_booking 7 1 (create_booking "t1" 7 1 sample_db).2 = (true, db2) ∧
    get_booking_count 1 db2 = get_booking_count 1 sample_db ∧
    create_booking "t2" 7 1 db2 = (true, db3) ∧
    get_booking_count 1 db3
      = get_booking_count 1 (create_booking "t1" 7 1 sample_db).2 ∧
    get_booking_count 1 (create_booking "t1" 7 1 sample_db).2
      = get_booking_count 1 sample_db + 1.
Proof.
  apply (book_cancel_book "t1" "t2" 7 1 sample_db).
  vm_compute. reflexivity.
Defined.

(** ** Votes *)

Lemma has_voted_false pid uid db :
  has_voted pid uid db = false ↔
  filter (vote_matches pid uid) (poll_votes db) = [].
Proof. unfold has_voted. by destruct (filter _ _). Qed.

Lemma voted_vote_poll now pid uid idx db :
  has_voted pid uid db = true →
  vote_poll now pid uid idx db = (false, db).
Proof. intros Hv. unfold vote_poll, insert_vote. by rewrite Hv. Qed.

Lemma not_voted_vote_poll now pid uid idx db :
  has_voted pid uid db = false →
  vote_poll now pid uid idx db =
  (true, with_votes db
           (poll_votes db ++ [mkVote (seq_votes db + 1) pid uid idx now])
           (seq_votes db + 1)).
Proof. intros Hv. unfold vote_poll, insert_vote. by rewrite Hv. Qed.

Lemma voted_vote_in_poll now pid uid idx db :
  has_voted pid uid db = true →
  vote_in_poll now pid uid idx db = (Done [Alert msg_already_voted], db).
Proof.
  intros Hv. unfold vote_in_poll. by rewrite voted_vote_poll.
Qed.

Lemma vote_poll_true_voted now pid uid idx db db1 :
  vote_poll now pid uid idx db = (true, db1) →
  has_voted pid uid db1 = true.
Proof.
  destruct (has_voted pid uid db) eqn:Hv.
  - by rewrite voted_vote_poll.
  - rewrite not_voted_vote_poll by done. intros [= <-].
    unfold has_voted. simpl.
    rewrite filter_app, filter_cons, filter_nil.
    rewrite decide_True by done.
    by destruct (filter _ (poll_votes db)).
Qed.

(** The claim C6 fails on [vote_in_poll]: poll 1 has the two options "A"
    and "B"; a vote of actor 7 with index 5, and one of actor 8 with index
    -1, are both stored; and a vote for poll 9, which does not exist, is
    stored and acknowledged. *)
Lemma unchecked_votes_recorded :
  polls sample_poll_db !! 1 = Some (mkPoll 1 "Q" ["A"; "B"] true) ∧
  poll_votes (vote_in_poll "t" 1 7 5 sample_poll_db).2
    = [mkVote 1 1 7 5 "t"] ∧
  (vote_in_poll "t" 1 7 5 sample_poll_db).1 = Raise IndexError ∧
  poll_votes (vote_in_poll "t" 1 8 (-1) sample_poll_db).2
    = [mkVote 1 1 8 (-1) "t"] ∧
  (vote_in_poll "t" 1 8 (-1) sample_poll_db).1
    = Done [Alert (msg_voted_for "B")] ∧
  polls sample_poll_db !! 9 = None ∧
  poll_votes (vote_in_poll "t" 9 7 0 sample_poll_db).2
    = [mkVote 1 9 7 0 "t"] ∧
  (vote_in_poll "t" 9 7 0 sample_poll_db).1 = Done [Alert msg_vote_accepted].
Proof. vm_compute. repeat split; reflexivity. Qed.

(** C6 (amended). [vote_in_poll] validates nothing before the store call.
    For a poll id, an actor and an index that SQLite stores (signed 64-bit
    integers): whenever the actor has no vote in the poll, [vote_poll]
    inserts the vote row with the index given, whatever that index and
    whether or not the poll exists; for a poll id that resolves to no poll
    the handler then acknowledges the vote as accepted.  Only when the
    actor already has a vote in that poll is no row created, and the
    answer is "already voted". *)
Theorem vote_in_poll_unchecked now pid uid idx db :
  sqlite_int pid = true → sqlite_int uid = true → sqlite_int idx = true →
  (has_voted pid uid db = false →
   (vote_in_poll now pid uid idx db).2
   = with_votes db
       (poll_votes db ++ [mkVote (seq_votes db + 1) pid uid idx now])
       (seq_votes db + 1) ∧
   (polls db !! pid = None →
    (vote_in_poll now pid uid idx db).1 = Done [Alert msg_vote_accepted])) ∧
  (has_voted pid uid db = true →
   vote_in_poll now pid uid idx db = (Done [Alert msg_already_voted], db)).
Proof.
  intros _ _ _. split; [|apply voted_vote_in_poll].
  intros Hv. unfold vote_in_poll. rewrite not_voted_vote_poll by done.
  unfold get_poll. simpl. split.
  - destruct (polls db !! pid) as [poll|]; [|done].
    destruct (poll_is_active poll); [|done].
    by destruct (py_index (options poll) idx).
  - by intros ->.
Qed.

Lemma vote_in_poll_unchecked_witness :
  (vote_in_poll "t" 9 7 0 sample_poll_db).1 = Done [Alert msg_vote_accepted] ∧
  vote_in_poll "t2" 1 7 0 (vote_poll "t" 1 7 1 sample_poll_db).2
  = (Done [Alert msg_already_voted], (vote_poll "t" 1 7 1 sample_poll_db).2).
Proof.
  split.
  - apply (vote_in_poll_unchecked "t" 9 7 0 sample_poll_db);
      vm_compute; reflexivity.
  - apply (vote_in_poll_unchecked "t2" 1 7 0
             (vote_poll "t" 1 7 1 sample_poll_db).2);
      vm_compute; reflexivity.
Defined.

(** ** The tally *)

Lemma sum_values_insert_fresh (m : gmap Z Z) k c :
  m !! k = None → sum_values (<[k := c]> m) = c + sum_values m.
Proof.
  intros Hk. unfold sum_values.
  rewrite map_fold_insert_L; [done| |done].
  intros. lia.
Qed.

Lemma sum_values_insert (m : gmap Z Z) k c :
  sum_values (<[k := c]> m) + default 0 (m !! k) = c + sum_values m.
Proof.
  destruct (m !! k) as [c0|] eqn:Hk; simpl.
  - rewrite <- (insert_delete_eq m).
    rewrite <- (insert_delete_id m k c0) at 2 by done.
    rewrite !sum_values_insert_fresh by apply lookup_delete_eq. lia.
  - rewrite sum_values_insert_fresh by done. lia.
Qed.

Lemma sum_values_tally (l : list Vote) :
  sum_values (foldr count_group ∅ l) = Z.of_nat (length l).
Proof.
  induction l as [|v l IH]; [done|].
  simpl foldr. unfold count_group at 1.
  pose proof (sum_values_insert (foldr count_group ∅ l) (option_index v)
                (default 0 (foldr count_group ∅ l !! option_index v) + 1)).
  rewrite length_cons. lia.
Qed.

(** C7. When the actor already has a vote in the poll, a vote attempt
    returns [False] from the store and "already voted" from the handler,
    and the database is unchanged, so the vote rows and the tally are
    unchanged; this is the case after every successful vote of that actor
    in that poll.  For every poll the counts of [get_poll_results] sum to
    the number of rows of [poll_votes] that carry the id of the poll. *)
Theorem one_vote_and_tally_sum pid db :
  (∀ now uid idx,
     has_voted pid uid db = true →
     vote_poll now pid uid idx db = (false, db) ∧
     vote_in_poll now pid uid idx db = (Done [Alert msg_already_voted], db)) ∧
  (∀ now uid idx db1,
     vote_poll now pid uid idx db = (true, db1) →
     ∀ now' idx',
       vote_poll now' pid uid idx' db1 = (false, db1) ∧
       vote_in_poll now' pid uid idx' db1
         = (Done [Alert msg_already_voted], db1) ∧
       poll_votes (vote_in_poll now' pid uid idx' db1).2 = poll_votes db1 ∧
       get_poll_results pid (vote_in_poll now' pid uid idx' db1).2
         = get_poll_results pid db1) ∧
  sum_values (get_poll_results pid db)
    = Z.of_nat (length (filter (λ v, v_poll_id v = pid) (poll_votes db))).
Proof.
  split; [|split].
  - intros now uid idx Hv.
    split; [by apply voted_vote_poll|by apply voted_vote_in_poll].
  - intros now uid idx db1 Hvote now' idx'.
    apply vote_poll_true_voted in Hvote.
    rewrite voted_vote_in_poll by done.
    by rewrite voted_vote_poll.
  - apply sum_values_tally.
Qed.

Lemma one_vote_and_tally_sum_witness :
  vote_in_poll "t2" 1 7 0 (vote_poll "t" 1 7 1 sample_poll_db).2
  = (Done [Alert msg_already_voted], (vote_poll "t" 1 7 1 sample_poll_db).2).
Proof.
  apply (one_vote_and_tally_sum 1 sample_poll_db) with (now := "t") (idx := 1).
  vm_compute. reflexivity.
Defined.

(** ** Poll results *)

Lemma tally_lookup (l : list Vote) i :
  foldr count_group ∅ l !! i =
  if decide (votes_for i l = 0) then None else Some (votes_for i l).
Proof.
  unfold votes_for. induction l as [|v l IH]; [done|].
  simpl foldr. unfold count_group at 1. rewrite filter_cons.
  destruct (decide (option_index v = i)) as [->|Hne].
  - rewrite lookup_insert_eq, IH, length_cons.
    repeat case_decide; simpl; try lia; f_equal; lia.
  - by rewrite lookup_insert_ne.
Qed.

Lemma rows_for_votes pid i db :
  rows_for pid i db = votes_for i (votes_of_poll pid db).
Proof.
  unfold rows_for, votes_for, votes_of_poll. f_equal.
  induction (poll_votes db) as [|v l IH]; [done|].
  rewrite !filter_cons.
  destruct (decide (v_poll_id v = pid)) as [Hp|Hp].
  - rewrite filter_cons.
    destruct (decide (option_index v = i)) as [Hi|Hi].
    + rewrite decide_True by done. simpl. by rewrite IH.
    + rewrite decide_False by tauto. done.
  - rewrite decide_False by tauto. done.
Qed.

Lemma rows_for_le pid i db : 0 ≤ rows_for pid i db ≤ rows_of pid db.
Proof.
  rewrite rows_for_votes. unfold votes_for, rows_of.
  fold (votes_of_poll pid db).
  pose proof (length_filter (λ v, option_index v = i) (votes_of_poll pid db)).
  lia.
Qed.

Lemma tally_rows pid db i :
  get_poll_results pid db !! i
  = if decide (rows_for pid i db = 0) then None
    else Some (rows_for pid i db).
Proof. rewrite rows_for_votes. apply tally_lookup. Qed.

Lemma overflow_bound : 2 ≤ DBL_OVERFLOW.
Proof. by vm_compute. Qed.

(** A count out of a positive total has its percentage: the division
    neither fails nor overflows. *)
Lemma percentage_votes votes total_votes :
  0 ≤ votes ≤ total_votes → 0 < total_votes →
  percentage votes total_votes = inr (binary64_percent votes total_votes).
Proof.
  intros Hv Ht. unfold percentage, py_truediv.
  rewrite bool_decide_eq_true_2 by done.
  rewrite bool_decide_eq_false_2 by lia.
  pose proof overflow_bound.
  rewrite bool_decide_eq_false_2 by nia. done.
Qed.

Lemma result_lines_from pid db opts k :
  0 < rows_of pid db →
  result_lines_loop (imap (λ i x, (Z.of_nat (k + i), x)) opts)
    (get_poll_results pid db) (rows_of pid db)
  = inr (imap (λ i, line_at pid db (k + i)) opts).
Proof.
  intros Htot. revert k. induction opts as [|o opts IH]; intros k; [done|].
  simpl. unfold result_line at 1. simpl.
  rewrite tally_rows, Nat.add_0_r.
  assert (default 0
            (if decide (rows_for pid (Z.of_nat k) db = 0) then None
             else Some (rows_for pid (Z.of_nat k) db))
          = rows_for pid (Z.of_nat k) db) as ->.
  { by destruct (decide _) as [->|]. }
  rewrite percentage_votes by (apply rows_for_le || done).
  rewrite (imap_ext _ (λ i x, (Z.of_nat (S k + i), x)))
    by (intros; simpl; do 2 f_equal; lia).
  rewrite IH. do 2 f_equal.
  apply imap_ext. intros. simpl. f_equal. lia.
Qed.

Lemma result_lines_total pid db opts :
  0 < rows_of pid db →
  result_lines opts (get_poll_results pid db) (rows_of pid db)
  = inr (imap (line_at pid db) opts).
Proof.
  intros Htot. unfold result_lines, enumerate.
  apply (result_lines_from pid db opts 0 Htot).
Qed.

(** The percentage is the rounded one: 23 votes of 80 give
    28.749999999999996, the float 8092405580431359 * 2^-48, and not
    28.75. *)
Example percent_23_of_80 :
  percentage 23 80 = inr (S754_finite false 8092405580431359 (-48)) ∧
  8092405580431359 * 4 ≠ 115 * 2 ^ 48.
Proof. split; [by vm_compute|by vm_compute]. Qed.

(** The claim C8 fails on [get_poll_results] and on the empty poll: with
    options "A" and "B" and one vote for index 1 the tally is the mapping
    with the single entry 1 -> 1, without an entry for option 0; and with
    no vote at all [show_poll_results] reports that nobody has voted and
    lists no option. *)
Lemma tally_without_zero_entry :
  get_poll_results 1 (vote_poll "t" 1 7 1 sample_poll_db).2 = {[1 := 1]} ∧
  get_poll_results 1 (vote_poll "t" 1 7 1 sample_poll_db).2 !! 0 = None ∧
  get_poll_results 1 (vote_poll "t" 1 7 1 sample_poll_db).2
    ≠ <[0 := 0]> {[1 := 1]} ∧
  show_poll_results [] 7 1 sample_poll_db
    = Done [ResultsMessage "Q" NobodyVoted false; Ack].
Proof.
  assert (get_poll_results 1 (vote_poll "t" 1 7 1 sample_poll_db).2
          = {[1 := 1]}) as Ht by (vm_compute; reflexivity).
  rewrite Ht. split; [reflexivity|]. split; [reflexivity|].
  split; [|vm_compute; reflexivity].
  intros Heq.
  assert (({[1 := 1]} : gmap Z Z) !! 0 = Some 0) as Hl
    by (rewrite Heq; apply lookup_insert_eq).
  discriminate Hl.
Qed.

Section Results.

Variable ADMIN_IDS : list Z.

(** C8 (amended). [get_poll_results] has an entry exactly for the options
    that received a vote in the poll, with the number of the rows of
    [poll_votes] cast for them in that poll.  [show_poll_results] never
    divides by zero: for a poll that exists it reports, when no row is
    cast in the poll, only that nobody has voted; when at least one is,
    every option of the poll in original order with its count, 0 for an
    option without votes, and the binary64 value of count / total * 100,
    the total being the number of rows cast in the poll. *)
Theorem poll_results_report uid pid db :
  (∀ i, get_poll_results pid db !! i =
        if decide (rows_for pid i db = 0) then None
        else Some (rows_for pid i db)) ∧
  show_poll_results ADMIN_IDS uid pid db ≠ Raise ZeroDivisionError ∧
  (∀ poll,
     get_poll pid db = Some poll →
     let button := is_admin ADMIN_IDS uid && poll_is_active poll in
     (rows_of pid db = 0 →
      show_poll_results ADMIN_IDS uid pid db
      = Done [ResultsMessage (question poll) NobodyVoted button; Ack]) ∧
     (0 < rows_of pid db →
      show_poll_results ADMIN_IDS uid pid db
      = Done [ResultsMessage (question poll)
                (Lines (imap (line_at pid db) (options poll))
                   (rows_of pid db))
                button;
              Ack])).
Proof.
  split; [intros i; apply tally_rows|].
  assert (sum_values (get_poll_results pid db) = rows_of pid db) as Hsum
    by apply sum_values_tally.
  pose proof (rows_for_le pid 0 db) as Hnn.
  split.
  - unfold show_poll_results.
    destruct (get_poll pid db) as [poll|]; [|done].
    simpl. rewrite Hsum. case_bool_decide; [done|].
    by rewrite result_lines_total by lia.
  - intros poll Hpoll button. unfold show_poll_results.
    rewrite Hpoll. simpl. rewrite Hsum. split; intros Htot.
    + by rewrite bool_decide_eq_true_2.
    + rewrite bool_decide_eq_false_2 by lia.
      by rewrite result_lines_total.
Qed.

End Results.

Lemma poll_results_report_witness :
  show_poll_results [] 7 1 (vote_poll "t" 1 7 1 sample_poll_db).2
  = Done [ResultsMessage "Q"
            (Lines [mkLine "A" 0 (S754_zero false);
                    mkLine "B" 1 (S754_finite false 7036874417766400 (-46))]
               1)
            false;
          Ack].
Proof.
  apply (poll_results_report [] 7 1 (vote_poll "t" 1 7 1 sample_poll_db).2)
    with (poll := mkPoll 1 "Q" ["A"; "B"] true).
  - vm_compute. reflexivity.
  - vm_compute. reflexivity.
Defined.

(** ** The activity form *)

Section Forms.

Variable ADMIN_IDS : list Z.

(** The three steps before the capacity step leave the session at the
    capacity step with the three fields collected. *)
Lemma activity_chain_fields uid nm descr dt ctx0 :
  is_admin ADMIN_IDS uid = true →
  let ctx1 := (start_add_activity ADMIN_IDS uid ctx0).2 in
  let ctx2 := (process_activity_name ADMIN_IDS uid nm ctx1).2 in
  let ctx3 := (process_activity_description ADMIN_IDS uid descr ctx2).2 in
  let ctx4 := (process_activity_datetime ADMIN_IDS uid dt ctx3).2 in
  fsm_state ctx4 = Some waiting_activity_capacity ∧
  fsm_data ctx4 !! "activity_name" = Some nm ∧
  fsm_data ctx4 !! "activity_description" = Some descr ∧
  fsm_data ctx4 !! "activity_datetime" = Some dt.
Proof.
  intros Hadm. unfold start_add_activity, process_activity_name,
    process_activity_description, process_activity_datetime.
  rewrite Hadm. simpl. split; [done|].
  by simplify_map_eq.
Qed.

Lemma parse_capacity_rejects text :
  strip text ≠ "-" →
  (py_int text = None ∨ ∃ n, py_int text = Some n ∧ n ≤ 0) →
  ∃ msg, parse_capacity text = inl msg.
Proof.
  intros Hdash Hbad. unfold parse_capacity.
  rewrite bool_decide_eq_false_2 by done.
  destruct Hbad as [->|(n & -> & Hn)]; [eauto|].
  rewrite bool_decide_eq_true_2 by done. eauto.
Qed.

Lemma parse_capacity_accepts text capacity :
  (strip text = "-" ∧ capacity = MAX_BOOKING_CAPACITY) ∨
  (strip text ≠ "-" ∧ py_int text = Some capacity ∧ 0 < capacity) →
  parse_capacity text = inr capacity.
Proof.
  unfold parse_capacity. intros [[Hdash ->]|(Hdash & Hint & Hpos)].
  - by rewrite bool_decide_eq_true_2.
  - rewrite bool_decide_eq_false_2, Hint by done.
    by rewrite bool_decide_eq_false_2 by lia.
Qed.

(** C9 (amended). At the capacity step of the activity form, for an
    administrator and a text of a message (at most 4096 characters, so
    that [int] meets no limit on the number of digits): a text that is
    not "-" and is not an integer, or is an integer that is not positive,
    gets a re-prompt, and the session (its state and its collected fields)
    and the database are left as they were, so no activity is created; the
    text "-" (capacity 50) or a positive integer that SQLite stores, one
    below 2^63, creates the activity from the collected name, description
    and date with that capacity under a new key, changes no other
    activity, and clears the session. *)
Theorem capacity_step uid text ctx db :
  is_admin ADMIN_IDS uid = true →
  (length (utf8_chars text) ≤ 4096)%nat →
  (strip text ≠ "-" →
   (py_int text = None ∨ ∃ n, py_int text = Some n ∧ n ≤ 0) →
   ∃ msg, process_activity_capacity ADMIN_IDS uid text ctx db
          = (Done [Send msg], ctx, db)) ∧
  (∀ nm descr dt capacity,
     fsm_data ctx !! "activity_name" = Some nm →
     fsm_data ctx !! "activity_description" = Some descr →
     fsm_data ctx !! "activity_datetime" = Some dt →
     (strip text = "-" ∧ capacity = MAX_BOOKING_CAPACITY) ∨
     (strip text ≠ "-" ∧ py_int text = Some capacity ∧ 0 < capacity) →
     capacity < 2 ^ 63 →
     ∃ db1,
       process_activity_capacity ADMIN_IDS uid text ctx db
       = (Done [ActivityCreated nm dt capacity], mkCtx None ∅, db1) ∧
       add_activity nm descr dt capacity db = inr (seq_activities db + 1, db1) ∧
       activities db1 !! (seq_activities db + 1)
       = Some (mkActivity (seq_activities db + 1) nm descr dt capacity true) ∧
       (∀ k, k ≠ seq_activities db + 1 →
             activities db1 !! k = activities db !! k)).
Proof.
  intros Hadm _. unfold process_activity_capacity. rewrite Hadm. simpl. split.
  - intros Hdash Hbad.
    destruct (parse_capacity_rejects text Hdash Hbad) as [msg ->]. eauto.
  - intros nm descr dt capacity Hnm Hdescr Hdt Hok Hmax.
    rewrite (parse_capacity_accepts text capacity Hok), Hnm, Hdescr, Hdt.
    assert (sqlite_int capacity = true) as Hfit.
    { apply bool_decide_eq_true_2. unfold MAX_BOOKING_CAPACITY in Hok. lia. }
    unfold add_activity. rewrite Hfit.
    eexists. split; [reflexivity|]. split; [reflexivity|].
    simpl. split; [apply lookup_insert_eq|].
    intros k Hk. by rewrite lookup_insert_ne.
Qed.

(** ** The listing of an activity's bookings *)

Lemma omap_length_le {A B} (f : A → option B) (l : list A) :
  (length (omap f l) ≤ length l)%nat.
Proof.
  induction l as [|x l IH]; [done|]. csimpl.
  destruct (f x); simpl; lia.
Qed.

Lemma omap_length_eq {A B} (f : A → option B) (l : list A) :
  length (omap f l) = length l ↔ Forall (λ x, is_Some (f x)) l.
Proof.
  induction l as [|x l IH]; [by split|]. csimpl.
  pose proof (omap_length_le f l).
  destruct (f x) as [y|] eqn:Hfx; simpl.
  - rewrite Forall_cons. split.
    + intros Hlen. split; [by rewrite Hfx|]. apply IH. lia.
    + intros [_ Hall]. f_equal. by apply IH.
  - split; [lia|]. intros [[y Hy] _]%Forall_cons. congruence.
Qed.

Lemma listing_bookings aid db :
  l_booking <$> get_activity_bookings aid db
  = filter (λ b, is_Some (users db !! b_user_id b)) (bookings_of_activity aid db).
Proof.
  unfold get_activity_bookings.
  induction (bookings_of_activity aid db) as [|b l IH]; [done|].
  csimpl. rewrite filter_cons.
  destruct (users db !! b_user_id b) as [u|]; csimpl; by rewrite IH.
Qed.

Lemma csv_rows_user_ids (l : list BookingListing) :
  csv_user_id <$> (csv_row <$> enumerate_from_1 l)
  = (b_user_id ∘ l_booking) <$> l.
Proof.
  apply list_eq. intros i. unfold enumerate_from_1.
  rewrite !list_lookup_fmap, list_lookup_imap.
  by destruct (l !! i).
Qed.

Lemma listing_length_le aid db :
  (length (get_activity_bookings aid db)
   ≤ length (bookings_of_activity aid db))%nat.
Proof. apply omap_length_le. Qed.

Lemma listing_length_eq aid db :
  length (get_activity_bookings aid db) = length (bookings_of_activity aid db)
  ↔ ∀ b, b ∈ bookings db → b_activity_id b = aid →
         is_Some (users db !! b_user_id b).
Proof.
  unfold get_activity_bookings. rewrite omap_length_eq, Forall_forall.
  unfold bookings_of_activity. split.
  - intros Hall b Hin Ha.
    assert (b ∈ filter (λ b, b_activity_id b = aid) (bookings db)) as Hsel
      by (apply list_elem_of_filter; done).
    apply Hall in Hsel. destruct (users db !! b_user_id b); [eauto|].
    by destruct Hsel.
  - intros Hall b [Ha Hin]%list_elem_of_filter.
    destruct (Hall b Hin Ha) as [u ->]. eauto.
Qed.

(** C10. The listing of an activity's bookings has as many rows as
    [get_booking_count] reports exactly when every booking of the activity
    has a row in [users] for its [user_id]; it never has more.  A booking
    of the activity whose actor has no user row is counted by
    [get_booking_count] and is missing from the listing, from the admin
    view and from the exported rows, which are the rows of the listing. *)
Theorem listing_vs_count aid db :
  (Z.of_nat (length (get_activity_bookings aid db)) ≤ get_booking_count aid db) ∧
  (Z.of_nat (length (get_activity_bookings aid db)) = get_booking_count aid db
   ↔ ∀ b, b ∈ bookings db → b_activity_id b = aid →
          is_Some (users db !! b_user_id b)) ∧
  (∀ b, b ∈ bookings db → b_activity_id b = aid →
        users db !! b_user_id b = None →
        b ∈ bookings_of_activity aid db ∧
        (b ∉ l_booking <$> get_activity_bookings aid db) ∧
        Z.of_nat (length (get_activity_bookings aid db))
          < get_booking_count aid db) ∧
  (∀ uid act,
     is_admin ADMIN_IDS uid = true →
     get_activity aid db = Some act →
     ∃ rows participants,
       export_bookings ADMIN_IDS uid aid db
       = Done [Document (name act) rows
                 (Z.of_nat (length (get_activity_bookings aid db)));
               Toast "✅ Файл отправлен"] ∧
       csv_user_id <$> rows
       = (b_user_id ∘ l_booking) <$> get_activity_bookings aid db ∧
       show_activity_bookings ADMIN_IDS uid aid db
       = Done [AdminActivityView (name act)
                 (Z.of_nat (length (get_activity_bookings aid db)))
                 (max_capacity act) participants;
               Ack] ∧
       length participants = length (get_activity_bookings aid db)).
Proof.
  pose proof (listing_length_le aid db) as Hle.
  pose proof (listing_length_eq aid db) as Heq.
  split; [unfold get_booking_count; lia|].
  split; [unfold get_booking_count; rewrite <- Heq; lia|].
  split.
  - intros b Hin Ha Hnone.
    assert (b ∈ bookings_of_activity aid db) as Hsel
      by (apply list_elem_of_filter; done).
    split; [done|]. split.
    + rewrite listing_bookings. intros [[u Hu] _]%list_elem_of_filter.
      congruence.
    + unfold get_booking_count.
      destruct (decide (length (get_activity_bookings aid db)
                        = length (bookings_of_activity aid db))) as [He|Hne];
        [|lia].
      destruct (proj1 Heq He b Hin Ha) as [u Hu]. congruence.
  - intros uid act Hadm Hact.
    unfold export_bookings, show_activity_bookings. rewrite Hadm, Hact. simpl.
    eexists _, _. split; [reflexivity|]. split; [|split; [reflexivity|]].
    + apply csv_rows_user_ids.
    + unfold enumerate_from_1. by rewrite length_fmap, length_imap.
Qed.

End Forms.

(** The claim C9 fails on [process_activity_capacity]: the text
    "9223372036854775808" is a positive integer, 2^63; [add_activity]
    raises [OverflowError], no activity is created and the session stays
    at the capacity step with its fields. *)
Lemma capacity_beyond_sqlite :
  py_int "9223372036854775808" = Some (2 ^ 63) ∧
  0 < 2 ^ 63 ∧
  process_activity_capacity [1] 1 "9223372036854775808" sample_ctx sample_db
  = (Raise OverflowError, sample_ctx, sample_db) ∧
  fsm_state sample_ctx = Some waiting_activity_capacity.
Proof. vm_compute. repeat split; reflexivity. Qed.

Lemma capacity_step_witness :
  (∃ msg, process_activity_capacity [1] 1 "abc" sample_ctx sample_db
          = (Done [Send msg], sample_ctx, sample_db)) ∧
  (∃ msg, process_activity_capacity [1] 1 "0" sample_ctx sample_db
          = (Done [Send msg], sample_ctx, sample_db)) ∧
  (∃ db1, process_activity_capacity [1] 1 "-" sample_ctx sample_db
          = (Done [ActivityCreated "Workshop" "15 Nov, 11:00" 50],
             mkCtx None ∅, db1) ∧
          add_activity "Workshop" "AI" "15 Nov, 11:00" 50 sample_db
          = inr (seq_activities sample_db + 1, db1) ∧
          activities db1 !! (seq_activities sample_db + 1)
          = Some (mkActivity (seq_activities sample_db + 1)
                    "Workshop" "AI" "15 Nov, 11:00" 50 true) ∧
          (∀ k, k ≠ seq_activities sample_db + 1 →
                activities db1 !! k = activities sample_db !! k)) ∧
  (∃ db1, process_activity_capacity [1] 1 "30" sample_ctx sample_db
          = (Done [ActivityCreated "Workshop" "15 Nov, 11:00" 30],
             mkCtx None ∅, db1) ∧
          add_activity "Workshop" "AI" "15 Nov, 11:00" 30 sample_db
          = inr (seq_activities sample_db + 1, db1) ∧
          activities db1 !! (seq_activities sample_db + 1)
          = Some (mkActivity (seq_activities sample_db + 1)
                    "Workshop" "AI" "15 Nov, 11:00" 30 true) ∧
          (∀ k, k ≠ seq_activities sample_db + 1 →
                activities db1 !! k = activities sample_db !! k)).
Proof.
  assert (is_admin [1] 1 = true) as Hadm by (vm_compute; reflexivity).
  split; [|split; [|split]].
  - apply (capacity_step [1] 1 "abc" sample_ctx sample_db Hadm).
    + vm_compute. lia.
    + vm_compute. discriminate.
    + left. vm_compute. reflexivity.
  - apply (capacity_step [1] 1 "0" sample_ctx sample_db Hadm).
    + vm_compute. lia.
    + vm_compute. discriminate.
    + right. exists 0. split; [vm_compute; reflexivity|lia].
  - apply (capacity_step [1] 1 "-" sample_ctx sample_db Hadm).
    + vm_compute. lia.
    + vm_compute. reflexivity.
    + vm_compute. reflexivity.
    + vm_compute. reflexivity.
    + left. split; vm_compute; reflexivity.
    + vm_compute. reflexivity.
  - apply (capacity_step [1] 1 "30" sample_ctx sample_db Hadm).
    + vm_compute. lia.
    + vm_compute. reflexivity.
    + vm_compute. reflexivity.
    + vm_compute. reflexivity.
    + right. split; [vm_compute; discriminate|].
      split; [vm_compute; reflexivity|lia].
    + lia.
Defined.

Lemma listing_vs_count_witness :
  Z.of_nat (length (get_activity_bookings 1 sample_listing_db))
    < get_booking_count 1 sample_listing_db ∧
  Z.of_nat (length (get_activity_bookings 1
                      (add_user 8 None (Some "Bob") None false sample_listing_db)))
    = get_booking_count 1
        (add_user 8 None (Some "Bob") None false sample_listing_db).
Proof.
  split.
  - apply (listing_vs_count [1] 1 sample_listing_db) with (b := mkBooking 2 8 1 "t2").
    + assert (bookings sample_listing_db
              = [mkBooking 1 7 1 "t1"; mkBooking 2 8 1 "t2"]) as ->
        by (vm_compute; reflexivity).
      right. left.
    + reflexivity.
    + vm_compute. reflexivity.
  - apply (listing_vs_count [1] 1
             (add_user 8 None (Some "Bob") None false sample_listing_db)).
    assert (bookings (add_user 8 None (Some "Bob") None false sample_listing_db)
            = [mkBooking 1 7 1 "t1"; mkBooking 2 8 1 "t2"]) as ->
      by (vm_compute; reflexivity).
    intros b Hin _.
    apply elem_of_cons in Hin as [->|Hin];
      [|apply elem_of_cons in Hin as [->|Hin]; [|inversion Hin]];
      vm_compute; eauto.
Defined.

(** * Further properties *)

(** ** Characters of a text *)

Lemma string_app_empty_r s : s +:+ "" = s.
Proof.
  induction s as [|a s IH]; [reflexivity|].
  change (String a (s +:+ "") = String a s). by f_equal.
Qed.

Lemma rev_app_rev_app s t u :
  String.rev_app (String.rev_app s t) u = String.rev_app t (s +:+ u).
Proof.
  revert t. induction s as [|a s IH]; intros t; [reflexivity|].
  change (String.rev_app (String.rev_app s (String a t)) u
          = String.rev_app (String a t) (s +:+ u)).
  apply IH.
Qed.

Lemma string_rev_involutive s : String.rev (String.rev s) = s.
Proof.
  unfold String.rev. rewrite rev_app_rev_app. simpl.
  apply string_app_empty_r.
Qed.

Lemma joined_cons ch l : joined (ch :: l) = ch +:+ joined l.
Proof. reflexivity. Qed.

Lemma utf8_chars_head d t :
  ∃ x chs, utf8_chars (String d t) = String d x :: chs.
Proof.
  simpl. destruct (utf8_chars t) as [|[|e y] chs]; eauto.
  destruct (joins d e); eauto.
Qed.

Lemma joined_chars s : joined (utf8_chars s) = s.
Proof.
  induction s as [|c r IH]; [done|]. simpl.
  destruct (utf8_chars r) as [|[|d ch] chs].
  - rewrite joined_cons, <- IH. reflexivity.
  - rewrite joined_cons, <- IH. reflexivity.
  - destruct (joins c d); rewrite !joined_cons, <- IH; reflexivity.
Qed.

Lemma apart_empty ch : apart ch "".
Proof.
  induction ch as [|c r IH]; [done|]. destruct r; [done|]. apply IH.
Qed.

Lemma apart_head ch d t t' : apart ch (String d t) → apart ch (String d t').
Proof.
  induction ch as [|c r IH]; [done|]. destruct r; [done|]. apply IH.
Qed.

Lemma good_chars s : good (utf8_chars s).
Proof.
  induction s as [|c r IH]; [done|]. simpl.
  pose proof (joined_chars r) as Hj.
  destruct (utf8_chars r) as [|[|d ch] chs].
  - repeat split.
  - by destruct IH.
  - destruct (joins c d) eqn:Hcd.
    + destruct IH as (Hin & Hap & Hg). repeat split; done.
    + split; [done|]. split; [|done].
      change (joins c d = false). done.
Qed.

Lemma utf8_chars_cons c s :
  utf8_chars (String c s)
  = match utf8_chars s with
    | String d ch :: chs =>
        if joins c d then String c (String d ch) :: chs
        else String c "" :: String d ch :: chs
    | chs => String c "" :: chs
    end.
Proof. reflexivity. Qed.

Lemma app_chunk ch t :
  inner ch → apart ch t → utf8_chars (ch +:+ t) = ch :: utf8_chars t.
Proof.
  induction ch as [|c r IH]; [done|]. destruct r as [|d r].
  - intros _ Hap. change (utf8_chars (String c t) = String c "" :: utf8_chars t).
    destruct t as [|d t]; [done|].
    destruct (utf8_chars_head d t) as (x & chs & Hx).
    rewrite utf8_chars_cons, Hx. simpl in Hap. by rewrite Hap.
  - intros [Hcd Hin] Hap.
    change (utf8_chars (String c (String d r +:+ t))
            = String c (String d r) :: utf8_chars t).
    rewrite utf8_chars_cons, IH by done. by rewrite Hcd.
Qed.

Lemma good_rechunk l : good l → utf8_chars (joined l) = l.
Proof.
  induction l as [|ch l IH]; [done|]. intros (Hin & Hap & Hg).
  rewrite joined_cons, app_chunk by done. by rewrite IH.
Qed.

Lemma good_app_r p s : good (p ++ s) → good s.
Proof. induction p as [|ch p IH]; [done|]. intros (_ & _ & Hg). auto. Qed.

Lemma good_app_l p s : good (p ++ s) → good p.
Proof.
  induction p as [|ch p IH]; [done|]. intros (Hin & Hap & Hg).
  split; [done|]. split; [|by apply IH].
  destruct p as [|ch' p]; [apply apart_empty|].
  destruct Hg as (Hin' & _). destruct ch' as [|d x]; [done|].
  by apply (apart_head _ _ _ _ Hap).
Qed.

Lemma lstrip_chars_suffix l : ∃ p, l = p ++ lstrip_chars l.
Proof.
  induction l as [|ch l [p Hp]]; [by exists []|]. simpl.
  destruct (is_py_space ch); [|by exists []].
  exists (ch :: p). simpl. by f_equal.
Qed.

Lemma strip_chars_prefix l : ∃ p s, l = p ++ strip_chars l ++ s.
Proof.
  unfold strip_chars.
  destruct (lstrip_chars_suffix l) as [p Hp].
  destruct (lstrip_chars_suffix (rev (lstrip_chars l))) as [q Hq].
  exists p, (rev q). rewrite Hp at 1. f_equal.
  rewrite <- (rev_involutive (lstrip_chars l)) at 1. rewrite Hq at 1.
  by rewrite rev_app_distr.
Qed.

Lemma good_strip_chars l : good l → good (strip_chars l).
Proof.
  intros Hg. destruct (strip_chars_prefix l) as (p & s & Hl).
  rewrite Hl in Hg. by apply good_app_r, good_app_l in Hg.
Qed.

Lemma strip_chars_of_strip s : utf8_chars (strip s) = strip_chars (utf8_chars s).
Proof. apply good_rechunk, good_strip_chars, good_chars. Qed.

Lemma head_ok_lstrip_chars l : head_ok (lstrip_chars l).
Proof.
  induction l as [|ch l IH]; [done|]. simpl.
  by destruct (is_py_space ch) eqn:Hc.
Qed.

Lemma lstrip_chars_head_ok l : head_ok l → lstrip_chars l = l.
Proof. destruct l as [|ch l]; [done|]. simpl. by intros ->. Qed.

Lemma head_ok_strip_chars l :
  head_ok (strip_chars l) ∧ head_ok (rev (strip_chars l)).
Proof.
  unfold strip_chars. split.
  - pose proof (head_ok_lstrip_chars l) as Hh.
    destruct (lstrip_chars_suffix (rev (lstrip_chars l))) as [q Hq].
    apply (f_equal (@rev string)) in Hq. rewrite rev_involutive, rev_app_distr in Hq.
    rewrite Hq in Hh.
    by destruct (rev (lstrip_chars (rev (lstrip_chars l)))).
  - rewrite rev_involutive. apply head_ok_lstrip_chars.
Qed.

Lemma strip_trimmed s : trimmed (strip s).
Proof.
  unfold trimmed. rewrite strip_chars_of_strip. apply head_ok_strip_chars.
Qed.

Lemma trimmed_strip s : trimmed s → strip s = s.
Proof.
  intros [Hh Hl]. unfold strip, strip_chars.
  rewrite (lstrip_chars_head_ok _ Hh), (lstrip_chars_head_ok _ Hl).
  rewrite rev_involutive. apply joined_chars.
Qed.

(** [strip] changes nothing the second time. *)
Lemma strip_strip s : strip (strip s) = strip s.
Proof. apply trimmed_strip, strip_trimmed. Qed.

(** ** Plain texts *)

Lemma plain_chars s :
  plain s → utf8_chars s = (λ c, String c "") <$> String.list_ascii_of_string s.
Proof.
  induction s as [|c r IH]; [done|]. intros (Hc & _ & Hr).
  simpl. rewrite IH by done.
  destruct r as [|d r]; [done|]. simpl.
  unfold joins. replace (128 <=? N_of_ascii c)%N with false; [|symmetry; apply N.leb_gt; lia].
  by rewrite andb_false_r.
Qed.

Lemma plain_not_space c :
  (N_of_ascii c < 127)%N → Py_UNICODE_ISSPACE (N_of_ascii c) = false →
  is_py_space (String c "") = false.
Proof.
  intros Hc Hs. unfold is_py_space, code_point. simpl.
  replace (N_of_ascii c <? 128)%N with true; [done|].
  symmetry. apply N.ltb_lt. lia.
Qed.

Lemma plain_all_ok s :
  plain s →
  Forall (λ ch, is_py_space ch = false)
    ((λ c, String c "") <$> String.list_ascii_of_string s).
Proof.
  induction s as [|c r IH]; [constructor|]. intros (Hc & Hs & Hr).
  simpl. constructor; [by apply plain_not_space|by apply IH].
Qed.

Lemma Forall_head_ok l :
  Forall (λ ch, is_py_space ch = false) l → head_ok l.
Proof. by intros [|]. Qed.

Lemma strip_plain s : plain s → strip s = s.
Proof.
  intros Hs. apply trimmed_strip. unfold trimmed.
  rewrite plain_chars by done. pose proof (plain_all_ok s Hs) as Hall.
  split; [by apply Forall_head_ok|]. by apply Forall_head_ok, Forall_rev.
Qed.

Lemma Py_ISSPACE_unicode c :
  Py_UNICODE_ISSPACE (N_of_ascii c) = false → Py_ISSPACE c = false.
Proof.
  unfold Py_UNICODE_ISSPACE, Py_ISSPACE.
  generalize (N_of_ascii c) as n. intros n.
  rewrite !orb_false_iff, !andb_false_iff, !N.leb_gt, !N.eqb_neq.
  intros. split; lia.
Qed.

Lemma skip_spaces_plain s : plain s → skip_spaces s = s.
Proof.
  destruct s as [|c s]; [done|]. simpl. intros (_ & Hs & _).
  by rewrite Py_ISSPACE_unicode.
Qed.

Lemma plain_rev_app s t : plain s → plain t → plain (String.rev_app s t).
Proof.
  revert t. induction s as [|a s IH]; intros t; [done|].
  simpl. intros (Ha & Ha' & Hs) Ht. by apply IH.
Qed.

Lemma plain_rewritten s :
  plain s →
  String.string_of_list_ascii (to_ascii_decimal_space <$> utf8_chars s) = s.
Proof.
  intros Hs. rewrite plain_chars by done.
  induction s as [|c r IH]; [done|]. destruct Hs as (Hc & _ & Hr).
  simpl. f_equal; [|by apply IH].
  unfold to_ascii_decimal_space, code_point. simpl.
  replace (N_of_ascii c <? 128)%N with true by (symmetry; apply N.ltb_lt; lia).
  replace (N_of_ascii c <? 127)%N with true by (symmetry; by apply N.ltb_lt).
  apply ascii_N_embedding.
Qed.

(** [int] of a plain text reads its sign and its digits. *)
Lemma py_int_plain s :
  plain s →
  py_int s = match s with
             | String "+" r => py_digits r 0 false
             | String "-" r => Z.opp <$> py_digits r 0 false
             | t => py_digits t 0 false
             end.
Proof.
  intros Hs. unfold py_int. rewrite plain_rewritten by done.
  rewrite (skip_spaces_plain s Hs).
  rewrite skip_spaces_plain by (by apply plain_rev_app).
  rewrite string_rev_involutive.
  by destruct s as [|[[] [] [] [] [] [] [] []] r].
Qed.

(** ** Printing and parsing integers *)

Lemma uint_value_revapp d d' :
  uint_value d (Z.of_N (Unsigned.of_lu d'))
  = Z.of_N (Unsigned.of_lu (Decimal.revapp d d')).
Proof.
  revert d'. induction d as [|d IH|d IH|d IH|d IH|d IH|d IH|d IH|d IH|d IH|d IH];
    intros d'; [done|..]; simpl uint_value; simpl Decimal.revapp;
    rewrite <- IH; f_equal; simpl Unsigned.of_lu; lia.
Qed.

Lemma uint_value_of_uint d : uint_value d 0 = Z.of_uint d.
Proof.
  unfold Z.of_uint. rewrite Unsigned.of_uint_alt.
  apply (uint_value_revapp d Decimal.Nil).
Qed.

Lemma py_digits_uint d acc b :
  (d = Decimal.Nil → b = true) →
  py_digits (NilEmpty.string_of_uint d) acc b = Some (uint_value d acc).
Proof.
  revert acc b.
  induction d as [|d IH|d IH|d IH|d IH|d IH|d IH|d IH|d IH|d IH|d IH];
    intros acc b Hb; simpl;
    [by rewrite Hb|rewrite IH by done; do 2 f_equal; simpl; lia..].
Qed.

Lemma plain_uint d : plain (NilEmpty.string_of_uint d).
Proof. induction d; simpl; repeat split; try done; by vm_compute. Qed.

Lemma no_underscore_uint d : no_char "_" (NilEmpty.string_of_uint d).
Proof. induction d; simpl; auto. Qed.

Lemma to_uint_not_nil p : Pos.to_uint p ≠ Decimal.Nil.
Proof. apply Unsigned.to_uint_nonnil. Qed.

Lemma plain_py_str n : plain (py_str n).
Proof.
  unfold py_str. destruct (Z.to_int n); simpl; [apply plain_uint|].
  repeat split; try done; try (by vm_compute). apply plain_uint.
Qed.

(** [int(str(n)) == n]. *)
Lemma py_int_py_str n : py_int (py_str n) = Some n.
Proof.
  rewrite py_int_plain by apply plain_py_str. unfold py_str.
  rewrite <- (DecimalZ.of_to n) at 2.
  destruct (Z.to_int n) as [d|d] eqn:Hn; simpl NilEmpty.string_of_int.
  - assert (d ≠ Decimal.Nil) as Hd.
    { destruct n; simpl in Hn; try discriminate; injection Hn as <-;
        [done|apply to_uint_not_nil]. }
    simpl Z.of_int. rewrite <- uint_value_of_uint.
    destruct d; try done; simpl; by apply py_digits_uint.
  - assert (d ≠ Decimal.Nil) as Hd.
    { destruct n; simpl in Hn; try discriminate. injection Hn as <-.
      apply to_uint_not_nil. }
    change (Z.opp <$> py_digits (NilEmpty.string_of_uint d) 0 false
            = Some (Z.of_int (Decimal.Neg d))).
    rewrite py_digits_uint by done.
    simpl. by rewrite uint_value_of_uint.
Qed.

(** ** Callback data: written by the keyboards, read by the handlers *)

Lemma py_split_no_char sep s : no_char sep s → py_split sep s = [s].
Proof.
  induction s as [|c s IH]; [done|]. simpl. intros [Hc Hs].
  rewrite bool_decide_eq_false_2 by done. by rewrite IH.
Qed.

Lemma py_split_sep sep s t :
  no_char sep s →
  py_split sep (s +:+ String sep t) = s :: py_split sep t.
Proof.
  induction s as [|c s IH]; intros Hs.
  - change (py_split sep (String sep t) = "" :: py_split sep t).
    simpl. by rewrite bool_decide_eq_true_2.
  - destruct Hs as [Hc Hs].
    change (py_split sep (String c (s +:+ String sep t))
            = String c s :: py_split sep t).
    simpl. rewrite bool_decide_eq_false_2 by done. by rewrite IH.
Qed.

Lemma no_underscore_py_str n : no_char "_" (py_str n).
Proof.
  unfold py_str. destruct (Z.to_int n); simpl;
    [|split; [done|]]; apply no_underscore_uint.
Qed.

(** A prefix without "_" followed by "_" and a number: part 1 is the
    number. *)
Lemma callback_int_1 prefix n :
  no_char "_" prefix →
  callback_int 1 (prefix +:+ String "_" (py_str n)) = inr n.
Proof.
  intros Hp. unfold callback_int.
  rewrite py_split_sep, py_split_no_char by (done || apply no_underscore_py_str).
  simpl. by rewrite py_int_py_str.
Qed.

Lemma callback_int_2 p1 p2 n :
  no_char "_" p1 → no_char "_" p2 →
  callback_int 2 (p1 +:+ String "_" (p2 +:+ String "_" (py_str n))) = inr n.
Proof.
  intros H1 H2. unfold callback_int.
  rewrite !py_split_sep, py_split_no_char
    by (done || apply no_underscore_py_str).
  simpl. by rewrite py_int_py_str.
Qed.

Lemma callback_int_vote pid i :
  callback_int 1 ("vote_" +:+ py_str pid +:+ "_" +:+ py_str i) = inr pid ∧
  callback_int 2 ("vote_" +:+ py_str pid +:+ "_" +:+ py_str i) = inr i.
Proof.
  change ("vote_" +:+ py_str pid +:+ "_" +:+ py_str i)
    with ("vote" +:+ String "_" (py_str pid +:+ String "_" (py_str i))).
  unfold callback_int.
  rewrite !py_split_sep, py_split_no_char
    by (repeat split; done || apply no_underscore_py_str).
  simpl. by rewrite !py_int_py_str.
Qed.

Lemma history_rows_ok calls : rows_ok (history calls).
Proof.
  unfold history.
  assert (rows_ok empty_db) as Hempty
    by (intros k a Hk; simpl in Hk; by rewrite lookup_empty in Hk).
  revert Hempty. generalize empty_db as db.
  induction calls as [|c calls IH]; intros db Hdb; [done|].
  simpl. apply IH.
  destruct c as [op|uid uname fname lname adm|nm descr dt cap|q opts
                |now pid uid idx|pid];
    rewrite ?exec_add_activity; try (destruct (sqlite_int cap); [|done]);
    simpl; try done.
  - intros k a. rewrite step_activities. apply Hdb.
  - intros k a. simpl.
    destruct (decide (k = seq_activities db + 1)) as [->|Hne].
    + rewrite lookup_insert_eq. by intros [= <-].
    + rewrite lookup_insert_ne by done. apply Hdb.
  - unfold vote_poll, insert_vote. by destruct (has_voted pid uid db).
Qed.

(** ** The activity menu and the list of an actor's bookings *)

Lemma user_bookings_rows uid db :
  ub_booking <$> get_user_bookings uid db
  = filter (λ b, is_Some (activities db !! b_activity_id b))
      (filter (λ b, b_user_id b = uid) (bookings db)).
Proof.
  unfold get_user_bookings.
  induction (filter (λ b, b_user_id b = uid) (bookings db)) as [|b l IH];
    [done|].
  csimpl. rewrite filter_cons.
  destruct (activities db !! b_activity_id b) as [a|]; csimpl; by rewrite IH.
Qed.





Lemma filter_all {A} (P : A → Prop) `{!∀ x, Decision (P x)} (l : list A) :
  (∀ x, x ∈ l → P x) → filter P l = l.
Proof.
  induction l as [|x l IH]; intros Hall; [done|].
  rewrite filter_cons, decide_True by (apply Hall; left).
  f_equal. apply IH. intros y Hy. apply Hall. by right.
Qed.



(** ** The action keyboard of an activity *)

Lemma on_book_button now uid aid db :
  on_book now uid (btn_data (book_button aid)) db
  = inr (book_activity now uid aid db).
Proof.
  unfold on_book, book_button. simpl btn_data.
  change ("book_" +:+ py_str aid) with ("book" +:+ String "_" (py_str aid)).
  by rewrite callback_int_1.
Qed.

Lemma cancel_parts aid :
  py_split "_" (btn_data (cancel_button aid)) = ["cancel"; py_str aid].
Proof.
  unfold cancel_button. simpl btn_data.
  change ("cancel_" +:+ py_str aid)
    with ("cancel" +:+ String "_" (py_str aid)).
  rewrite py_split_sep, py_split_no_char
    by (done || apply no_underscore_py_str).
  done.
Qed.

(** X3. For an existing activity the keyboard under its details offers
    the "book" button exactly when [create_booking] of that actor would
    succeed, and the "cancel" button exactly when [cancel_booking] would
    delete a row; it never offers both and always offers the way back.
    The data of the "book" button, read by the "book_" handler, books that
    same activity. *)
Theorem details_keyboard_offers now uid aid db act :
  get_activity aid db = Some act →
  ∃ kb,
    details_keyboard uid aid db = Some kb ∧
    (book_button aid ∈ concat kb
     ↔ (create_booking now uid aid db).1 = true) ∧
    (cancel_button aid ∈ concat kb
     ↔ (cancel_booking uid aid db).1 = true) ∧
    ¬ (book_button aid ∈ concat kb ∧ cancel_button aid ∈ concat kb) ∧
    mkButton "🔙 Назад к списку" "back_to_activities" ∈ concat kb ∧
    on_book now uid (btn_data (book_button aid)) db
    = inr (book_activity now uid aid db).
Proof.
  intros Hact. unfold details_keyboard. rewrite Hact. eexists.
  split; [reflexivity|].
  rewrite cancel_result, create_booking_true_iff.
  unfold get_activity in Hact.
  assert (book_button aid ≠ cancel_button aid) as Hbc by discriminate.
  assert (book_button aid ≠ mkButton "🔙 Назад к списку" "back_to_activities")
    as Hbb by discriminate.
  assert (cancel_button aid ≠ mkButton "🔙 Назад к списку" "back_to_activities")
    as Hcb by discriminate.
  unfold get_activity_actions_keyboard.
  destruct (is_user_booked uid aid db) eqn:Hb; simpl.
  - rewrite !elem_of_cons, !elem_of_nil.
    fold (cancel_button aid). fold (book_button aid).
    split_and!; [intuition congruence..|apply on_book_button].
  - case_bool_decide as Hfull; simpl;
      rewrite ?elem_of_cons, !elem_of_nil;
      fold (cancel_button aid); fold (book_button aid).
    + split_and!; [|intuition congruence..|apply on_book_button].
      split; [intuition congruence|].
      intros [(row & Hrow & Hlt) _]. rewrite Hact in Hrow.
      injection Hrow as <-. lia.
    + split_and!; [|intuition congruence..|apply on_book_button].
      split; [|by left]. intros _. split; [|done].
      exists act. split; [done|lia].
Qed.

Lemma details_keyboard_offers_witness :
  ∃ kb,
    details_keyboard 9 1 sample_db = Some kb ∧
    (book_button 1 ∈ concat kb
     ↔ (create_booking "t" 9 1 sample_db).1 = true) ∧
    (cancel_button 1 ∈ concat kb
     ↔ (cancel_booking 9 1 sample_db).1 = true) ∧
    ¬ (book_button 1 ∈ concat kb ∧ cancel_button 1 ∈ concat kb) ∧
    mkButton "🔙 Назад к списку" "back_to_activities" ∈ concat kb ∧
    on_book "t" 9 (btn_data (book_button 1)) sample_db
    = inr (book_activity "t" 9 1 sample_db).
Proof.
  apply (details_keyboard_offers "t" 9 1 sample_db
           (mkActivity 1 "Workshop" "AI" "15 Nov, 11:00" 2 true)).
  vm_compute. reflexivity.
Defined.

(** ** The cancel handler *)

Lemma cancel_handler_skips page uid data db e :
  callback_int 1 data = inl e →
  cancel_booking_handler page uid data db = ([], db).
Proof.
  unfold callback_int, cancel_booking_handler.
  case_bool_decide; [done|].
  destruct (py_split "_" data !! 1%nat) as [part|]; [|done].
  by destruct (py_int part).
Qed.

Lemma cancel_handler_parsed page uid aid db :
  cancel_booking_handler page uid (btn_data (cancel_button aid)) db
  = let '(success, db1) := cancel_booking uid aid db in
    if success then
      (RAlert msg_cancelled ::
         (if page then RDetails <$> show_activity_details uid aid db1
          else show_my_bookings true uid db1), db1)
    else ([RAlert msg_cancel_failed], db1).
Proof.
  unfold cancel_booking_handler. rewrite cancel_parts. simpl.
  by rewrite py_int_py_str.
Qed.

(** X4. The handler of "cancel_" does nothing at all, no answer and no
    change, for data whose second part is missing or is not an integer;
    the data "cancel_operation" of the cancel keyboard of the forms is such
    data.  For the data of a cancel button of an activity it answers
    "could not cancel" and changes nothing when the actor holds no booking
    for it; when the actor holds one it answers "cancelled", the booking is
    gone, and the refreshed list of the actor's bookings no longer shows
    the activity. *)
Theorem cancel_handler_behaviour page uid db :
  (∀ data e, callback_int 1 data = inl e →
             cancel_booking_handler page uid data db = ([], db)) ∧
  cancel_booking_handler page uid "cancel_operation" db = ([], db) ∧
  (∀ aid, is_user_booked uid aid db = false →
          cancel_booking_handler page uid (btn_data (cancel_button aid)) db
          = ([RAlert msg_cancel_failed], db)) ∧
  (∀ aid, is_user_booked uid aid db = true →
          ∃ rest db1,
            cancel_booking_handler page uid (btn_data (cancel_button aid)) db
            = (RAlert msg_cancelled :: rest, db1) ∧
            db1 = (cancel_booking uid aid db).2 ∧
            is_user_booked uid aid db1 = false ∧
            aid ∉ (λ r, b_activity_id (ub_booking r))
                    <$> get_user_bookings uid db1).
Proof.
  split; [intros data e; apply cancel_handler_skips|].
  split; [by apply (cancel_handler_skips _ _ _ _ NotAnInt)|].
  split.
  - intros aid Hnb. rewrite cancel_handler_parsed.
    by rewrite cancel_not_booked.
  - intros aid Hb. rewrite cancel_handler_parsed.
    pose proof (cancel_result uid aid db) as Hres. rewrite Hb in Hres.
    pose proof (cancelled_not_booked uid aid db) as Hgone.
    destruct (cancel_booking uid aid db) as [success db1].
    simpl in Hres, Hgone. subst success.
    eexists _, db1. split; [reflexivity|]. split; [done|]. split; [done|].
    rewrite (list_fmap_compose ub_booking b_activity_id), user_bookings_rows.
    intros (b & -> & Hin)%list_elem_of_fmap.
    apply list_elem_of_filter in Hin as [_ Hin].
    apply list_elem_of_filter in Hin as [Hu Hin].
    assert (is_user_booked uid (b_activity_id b) db1 = true) as Hyes
      by (apply is_user_booked_true; by exists b).
    congruence.
Qed.

Lemma cancel_handler_behaviour_witness :
  cancel_booking_handler false 9 (btn_data (cancel_button 1)) sample_listing_db
    = ([RAlert msg_cancel_failed], sample_listing_db) ∧
  ∃ rest db1,
    cancel_booking_handler false 7 (btn_data (cancel_button 1)) sample_listing_db
    = (RAlert msg_cancelled :: rest, db1) ∧
    db1 = (cancel_booking 7 1 sample_listing_db).2 ∧
    is_user_booked 7 1 db1 = false ∧
    1 ∉ (λ r, b_activity_id (ub_booking r)) <$> get_user_bookings 7 db1.
Proof.
  split.
  - apply (cancel_handler_behaviour false 9 sample_listing_db).
    vm_compute. reflexivity.
  - apply (cancel_handler_behaviour false 7 sample_listing_db).
    vm_compute. reflexivity.
Defined.

(** ** The keyboard of a poll *)

Lemma py_index_nat {A} (l : list A) (i : nat) :
  py_index l (Z.of_nat i) = l !! i.
Proof.
  unfold py_index. rewrite bool_decide_eq_true_2 by lia.
  by rewrite Nat2Z.id.
Qed.

Lemma poll_keyboard_rows pid opts :
  get_poll_keyboard pid opts
  = imap (λ i opt, [vote_button pid i opt]) opts
    ++ [[mkButton "📊 Результаты" ("poll_results_" +:+ py_str pid)]].
Proof.
  unfold get_poll_keyboard, enumerate. f_equal.
  apply list_eq. intros i.
  rewrite list_lookup_fmap, !list_lookup_imap.
  by destruct (opts !! i).
Qed.

Section PollKeyboard.

Variable ADMIN_IDS : list Z.

(** X5. The keyboard of a stored poll has one vote button per option, in
    order and labelled with the option, and the results button.  The data
    of the button of option [i], read by the "vote_" handler, casts a vote
    for that poll with index [i]; that vote never raises [IndexError]; for
    an actor without a vote it is stored with index [i], and on an active
    poll the answer names the option of the button.  The data of the
    results button opens the results of the same poll. *)
Theorem poll_keyboard_votes pid poll db :
  get_poll pid db = Some poll →
  get_poll_keyboard pid (options poll)
    = imap (λ i opt, [vote_button pid i opt]) (options poll)
      ++ [[mkButton "📊 Результаты" ("poll_results_" +:+ py_str pid)]] ∧
  (∀ i opt now uid,
     options poll !! i = Some opt →
     on_vote now uid (btn_data (vote_button pid i opt)) db
       = inr (vote_in_poll now pid uid (Z.of_nat i) db) ∧
     (vote_in_poll now pid uid (Z.of_nat i) db).1 ≠ Raise IndexError ∧
     (has_voted pid uid db = false →
      poll_votes (vote_in_poll now pid uid (Z.of_nat i) db).2
        = poll_votes db ++ [mkVote (seq_votes db + 1) pid uid (Z.of_nat i) now] ∧
      (poll_is_active poll = true →
       (vote_in_poll now pid uid (Z.of_nat i) db).1
         = Done [Alert (msg_voted_for opt)]))) ∧
  (∀ uid,
     on_poll_results ADMIN_IDS uid ("poll_results_" +:+ py_str pid) db
     = inr (show_poll_results ADMIN_IDS uid pid db)).
Proof.
  intros Hpoll. split; [apply poll_keyboard_rows|]. split.
  - intros i opt now uid Hopt. split; [|split].
    + unfold on_vote, vote_button. simpl btn_data.
      destruct (callback_int_vote pid (Z.of_nat i)) as [-> ->]. done.
    + unfold vote_in_poll, vote_poll, insert_vote, get_poll in *.
      destruct (has_voted pid uid db); simpl; [done|].
      rewrite Hpoll. destruct (poll_is_active poll); [|done].
      by rewrite py_index_nat, Hopt.
    + intros Hnv. unfold vote_in_poll.
      rewrite not_voted_vote_poll by done.
      unfold get_poll in *. simpl. rewrite Hpoll. split.
      * destruct (poll_is_active poll); [|done].
        by rewrite py_index_nat, Hopt.
      * intros ->. by rewrite py_index_nat, Hopt.
  - intros uid. unfold on_poll_results.
    change ("poll_results_" +:+ py_str pid)
      with ("poll" +:+ String "_" ("results" +:+ String "_" (py_str pid))).
    by rewrite callback_int_2.
Qed.

End PollKeyboard.

Lemma poll_keyboard_votes_witness :
  on_vote "t" 7 (btn_data (vote_button 1 1 "B")) sample_poll_db
    = inr (vote_in_poll "t" 1 7 1 sample_poll_db) ∧
  (vote_in_poll "t" 1 7 1 sample_poll_db).1 ≠ Raise IndexError ∧
  (has_voted 1 7 sample_poll_db = false →
   poll_votes (vote_in_poll "t" 1 7 1 sample_poll_db).2
     = poll_votes sample_poll_db ++ [mkVote (seq_votes sample_poll_db + 1) 1 7 1 "t"] ∧
   (poll_is_active (mkPoll 1 "Q" ["A"; "B"] true) = true →
    (vote_in_poll "t" 1 7 1 sample_poll_db).1
      = Done [Alert (msg_voted_for "B")])).
Proof.
  apply (poll_keyboard_votes [] 1 (mkPoll 1 "Q" ["A"; "B"] true) sample_poll_db).
  - vm_compute. reflexivity.
  - reflexivity.
Defined.

(** ** Trimming *)


(** ** The fan-out loops *)






Section Fanout.

Variable ADMIN_IDS : list Z.



End Fanout.



(** ** Votes and the tally over time *)

Lemma exec_keeps_vote db c pid uid :
  has_voted pid uid db = true → has_voted pid uid (exec db c) = true.
Proof.
  intros Hv.
  destruct c as [op|u uname fname lname adm|nm descr dt cap|q opts
                |now p u idx|p];
    rewrite ?exec_add_activity; try (destruct (sqlite_int cap); [|done]);
    simpl; try done.
  - destruct op as [now u a|u a]; simpl; [|done].
    destruct (create_booking_cases now u a db)
      as [[-> _]|(row & db' & -> & _ & _ & Hins)]; [done|].
    simpl. unfold insert_booking in Hins.
    destruct (is_user_booked u a db); [done|]. by injection Hins as <-.
  - destruct (has_voted p u db) eqn:Hpu.
    + by rewrite voted_vote_poll.
    + rewrite not_voted_vote_poll by done. simpl.
      unfold has_voted in *. simpl. rewrite filter_app.
      by destruct (filter (vote_matches pid uid) (poll_votes db)).
Qed.

Lemma exec_unique_votes db c : unique_votes db → unique_votes (exec db c).
Proof.
  intros Hu.
  destruct c as [op|u uname fname lname adm|nm descr dt cap|q opts
                |now p u idx|p];
    rewrite ?exec_add_activity; try (destruct (sqlite_int cap); [|done]);
    simpl; try done.
  - destruct op as [now u a|u a]; simpl; [|done].
    destruct (create_booking_cases now u a db)
      as [[-> _]|(row & db' & -> & _ & _ & Hins)]; [done|].
    simpl. unfold insert_booking in Hins.
    destruct (is_user_booked u a db); [done|]. by injection Hins as <-.
  - destruct (has_voted p u db) eqn:Hpu.
    + by rewrite voted_vote_poll.
    + rewrite not_voted_vote_poll by done. intros pid uid. simpl.
      rewrite filter_app, length_app, filter_cons, filter_nil.
      destruct (decide (vote_matches pid uid _)) as [[Hp Hu']|_]; simpl in *.
      * subst. apply has_voted_false in Hpu. by rewrite Hpu.
      * specialize (Hu pid uid). lia.
Qed.

(** X8. On every database reached from the empty one there is at most one
    vote row per (poll, actor) pair; and a vote, once stored, is never
    removed by any later call: the actor stays "already voted" in that
    poll, and [close_poll] in particular leaves the votes and every tally
    as they were. *)
Theorem votes_kept_and_unique :
  (∀ calls, unique_votes (history calls)) ∧
  (∀ db calls pid uid,
     has_voted pid uid db = true →
     has_voted pid uid (foldl exec db calls) = true) ∧
  (∀ db pid p,
     poll_votes (close_poll pid db) = poll_votes db ∧
     get_poll_results p (close_poll pid db) = get_poll_results p db).
Proof.
  split; [|split].
  - intros calls. unfold history.
    assert (unique_votes empty_db) as Hempty by (intros p u; simpl; lia).
    revert Hempty. generalize empty_db as db.
    induction calls as [|c calls IH]; intros db Hdb; [done|].
    simpl. by apply IH, exec_unique_votes.
  - intros db calls pid uid. revert db.
    induction calls as [|c calls IH]; intros db Hv; [done|].
    simpl. by apply IH, exec_keeps_vote.
  - done.
Qed.

Lemma votes_kept_and_unique_witness :
  has_voted 1 7
    (foldl exec (vote_poll "t" 1 7 1 sample_poll_db).2
       [ClosePoll 1; VotePoll "t2" 1 7 0; AddUser 7 None None None false])
  = true.
Proof.
  apply (proj1 (proj2 votes_kept_and_unique)).
  vm_compute. reflexivity.
Defined.

(** ** Closing a poll *)

Lemma close_poll_lookup pid p db :
  get_poll p (close_poll pid db)
  = if decide (p = pid) then closed <$> get_poll pid db else get_poll p db.
Proof.
  unfold get_poll, close_poll. simpl. rewrite lookup_alter.
  destruct (decide (pid = p)) as [->|Hne].
  - by rewrite decide_True.
  - by rewrite decide_False by done.
Qed.

(** X9. [close_poll] clears the active flag of the poll and keeps its
    question and options; it changes no other poll, is a no-op on a
    missing poll and when repeated; a closed poll is no longer among
    [get_active_polls].  It does not stop voting: on a closed poll the
    first vote of an actor is still stored, whatever the index among
    those SQLite stores (signed 64-bit integers), and the handler answers
    "vote accepted". *)
Theorem close_poll_effects pid db :
  get_poll pid (close_poll pid db) = closed <$> get_poll pid db ∧
  (∀ p, p ≠ pid → get_poll p (close_poll pid db) = get_poll p db) ∧
  (get_poll pid db = None → close_poll pid db = db) ∧
  close_poll pid (close_poll pid db) = close_poll pid db ∧
  (∀ p, p ∈ get_active_polls (close_poll pid db) →
        ∃ k, k ≠ pid ∧ get_poll k db = Some p ∧ poll_is_active p = true) ∧
  (∀ now uid idx,
     sqlite_int pid = true → sqlite_int uid = true → sqlite_int idx = true →
     is_Some (get_poll pid db) →
     has_voted pid uid db = false →
     (vote_in_poll now pid uid idx (close_poll pid db)).1
       = Done [Alert msg_vote_accepted] ∧
     poll_votes (vote_in_poll now pid uid idx (close_poll pid db)).2
       = poll_votes db ++ [mkVote (seq_votes db + 1) pid uid idx now]).
Proof.
  split; [by rewrite close_poll_lookup, decide_True|].
  split; [by intros p Hne; rewrite close_poll_lookup, decide_False|].
  split; [|split; [|split]].
  - intros Hnone. destruct db as [us acts bs ps vs sa sb sp sv].
    unfold close_poll, get_poll in *. simpl in *.
    f_equal. apply map_eq. intros k. rewrite lookup_alter.
    destruct (decide (pid = k)) as [<-|]; [|done]. by rewrite Hnone.
  - destruct db as [us acts bs ps vs sa sb sp sv].
    unfold close_poll. simpl. f_equal.
    apply map_eq. intros k. rewrite !lookup_alter.
    repeat case_decide; try done. subst k.
    destruct (ps !! pid) as [p|]; reflexivity.
  - intros p Hp. unfold get_active_polls in Hp.
    apply list_elem_of_filter in Hp as [Hactive Hp].
    apply list_elem_of_fmap in Hp as ([k p'] & -> & Hp).
    apply elem_of_map_to_list in Hp.
    change (get_poll k (close_poll pid db) = Some p') in Hp.
    rewrite close_poll_lookup in Hp. simpl in Hactive.
    destruct (decide (k = pid)) as [->|Hne].
    + destruct (get_poll pid db); simpl in Hp; [|done].
      injection Hp as <-. done.
    + eauto.
  - intros now uid idx _ _ _ [poll Hpoll] Hnv. unfold vote_in_poll.
    assert (has_voted pid uid (close_poll pid db) = false) as Hnv' by done.
    rewrite not_voted_vote_poll by done.
    assert (get_poll pid
              (with_votes (close_poll pid db)
                 (poll_votes (close_poll pid db)
                    ++ [mkVote (seq_votes (close_poll pid db) + 1) pid uid idx now])
                 (seq_votes (close_poll pid db) + 1))
            = Some (closed poll)) as ->.
    { change (get_poll pid (close_poll pid db) = Some (closed poll)).
      by rewrite close_poll_lookup, decide_True, Hpoll. }
    done.
Qed.

Lemma close_poll_effects_witness :
  (vote_in_poll "t" 1 7 5 (close_poll 1 sample_poll_db)).1
    = Done [Alert msg_vote_accepted] ∧
  poll_votes (vote_in_poll "t" 1 7 5 (close_poll 1 sample_poll_db)).2
    = poll_votes sample_poll_db ++ [mkVote (seq_votes sample_poll_db + 1) 1 7 5 "t"].
Proof.
  apply (close_poll_effects 1 sample_poll_db).
  - reflexivity.
  - reflexivity.
  - reflexivity.
  - vm_compute. eauto.
  - vm_compute. reflexivity.
Defined.

(** ** A vote and the tally *)

Lemma votes_for_snoc i l v :
  votes_for i (l ++ [v])
  = votes_for i l + (if decide (option_index v = i) then 1 else 0).
Proof.
  unfold votes_for. rewrite filter_app, length_app, filter_cons, filter_nil.
  destruct (decide (option_index v = i)); simpl; lia.
Qed.

Lemma votes_for_nonneg i l : 0 ≤ votes_for i l.
Proof. unfold votes_for. lia. Qed.

(** X10. A vote that [vote_poll] accepts raises the count of the chosen
    option in the tally of its poll by exactly one, leaves the counts of
    the other options as they were, raises the total by one, and changes
    the tally of no other poll. *)
Theorem vote_raises_tally now pid uid idx db db1 :
  vote_poll now pid uid idx db = (true, db1) →
  get_poll_results pid db1
    = <[idx := default 0 (get_poll_results pid db !! idx) + 1]>
        (get_poll_results pid db) ∧
  sum_values (get_poll_results pid db1)
    = sum_values (get_poll_results pid db) + 1 ∧
  (∀ p, p ≠ pid → get_poll_results p db1 = get_poll_results p db).
Proof.
  intros Hvote.
  destruct (has_voted pid uid db) eqn:Hv;
    [by rewrite voted_vote_poll in Hvote|].
  rewrite not_voted_vote_poll in Hvote by done. injection Hvote as <-.
  assert (∀ p, votes_of_poll p
                 (with_votes db
                    (poll_votes db ++ [mkVote (seq_votes db + 1) pid uid idx now])
                    (seq_votes db + 1))
               = votes_of_poll p db
                 ++ (if decide (pid = p)
                     then [mkVote (seq_votes db + 1) pid uid idx now] else []))
    as Hrows.
  { intros p. unfold votes_of_poll. simpl.
    rewrite filter_app, filter_cons, filter_nil. simpl.
    by destruct (decide (pid = p)). }
  split; [|split].
  - unfold get_poll_results. rewrite Hrows, decide_True by done.
    apply map_eq. intros i. rewrite tally_lookup, votes_for_snoc. simpl.
    pose proof (votes_for_nonneg i (votes_of_poll pid db)).
    destruct (decide (idx = i)) as [->|Hne].
    + rewrite lookup_insert_eq, tally_lookup.
      repeat case_decide; simpl; try lia; f_equal; lia.
    + rewrite lookup_insert_ne, tally_lookup by done.
      repeat case_decide; simpl; try lia; f_equal; lia.
  - unfold get_poll_results. rewrite !sum_values_tally, Hrows.
    rewrite decide_True by done. rewrite length_app. simpl. lia.
  - intros p Hne. unfold get_poll_results. rewrite Hrows.
    rewrite decide_False by done. by rewrite app_nil_r.
Qed.

Lemma vote_raises_tally_witness :
  get_poll_results 1 (vote_poll "t" 1 7 1 sample_poll_db).2
  = <[1 := default 0 (get_poll_results 1 sample_poll_db !! 1) + 1]>
      (get_poll_results 1 sample_poll_db).
Proof.
  apply (vote_raises_tally "t" 1 7 1 sample_poll_db).
  vm_compute. reflexivity.
Defined.

(** ** Filling an activity and freeing a place *)

Lemma full_run now aid us db row :
  activities db !! aid = Some row →
  max_capacity row ≤ get_booking_count aid db →
  run (book_each now aid us) db = db.
Proof.
  intros Hrow Hfull. induction us as [|u us IH]; [done|].
  simpl. by rewrite (full_create_booking now u aid db row Hrow Hfull).
Qed.

(** X11. First come, first served: when actors without a booking, each
    named once, ask one after another for a place in an activity that is
    within its capacity, the count ends at the smaller of the capacity and
    the old count plus their number, and the actor at position [i] of the
    queue ends with a booking exactly when the old count plus [i] is below
    the capacity. *)
Theorem places_first_come now aid row us db :
  activities db !! aid = Some row →
  get_booking_count aid db ≤ max_capacity row →
  NoDup us →
  (∀ u, u ∈ us → is_user_booked u aid db = false) →
  get_booking_count aid (run (book_each now aid us) db)
    = Z.min (get_booking_count aid db + Z.of_nat (length us)) (max_capacity row) ∧
  (∀ i u, us !! i = Some u →
          (is_user_booked u aid (run (book_each now aid us) db) = true
           ↔ get_booking_count aid db + Z.of_nat i < max_capacity row)).
Proof.
  revert db. induction us as [|u us IH]; intros db Hrow Hle Hnd Hnb.
  - simpl. split; [lia|]. intros i u Hi. by rewrite lookup_nil in Hi.
  - apply NoDup_cons in Hnd as [Hu Hnd].
    destruct (decide (get_booking_count aid db < max_capacity row))
      as [Hlt|Hfull].
    + assert (is_user_booked u aid db = false) as Hub by (apply Hnb; left).
      assert ((create_booking now u aid db).1 = true) as Hyes
        by (apply create_booking_true_iff; eauto).
      destruct (create_booking_cases now u aid db)
        as [[Hf _]|(row' & db' & Ht & _ & _ & Hins)];
        [rewrite Hf in Hyes; done|].
      pose proof (count_after_insert _ _ _ aid _ _ Hins) as Hcount.
      rewrite decide_True in Hcount by done.
      pose proof (insert_booking_rows _ _ _ _ _ Hins) as (_ & _ & Hact & _).
      assert (is_user_booked u aid db' = true) as Hbooked
        by (eapply created_is_booked; exact Ht).
      change (run (book_each now aid (u :: us)) db)
        with (run (book_each now aid us) (create_booking now u aid db).2).
      rewrite Ht. simpl snd.
      destruct (IH db') as [IHc IHb].
      * by rewrite Hact.
      * lia.
      * done.
      * intros u' Hu'.
        rewrite (insert_other_not_booked _ _ _ _ _ u' aid Hins).
        -- apply Hnb. by right.
        -- intros [= ->]. done.
      * split; [rewrite IHc, Hcount, length_cons; lia|].
        intros [|i] u' Hi.
        -- injection Hi as <-. split; [lia|]. intros _.
           apply run_keeps_booking; [|done].
           unfold book_each. apply Forall_forall.
           intros op (u'' & -> & _)%list_elem_of_fmap. discriminate.
        -- rewrite (IHb i u' Hi), Hcount. lia.
    + change (run (book_each now aid (u :: us)) db)
        with (run (book_each now aid us) (create_booking now u aid db).2).
      rewrite (full_create_booking now u aid db row Hrow) by lia.
      simpl snd. rewrite (full_run now aid us db row Hrow) by lia.
      split; [rewrite length_cons; lia|].
      intros i u' Hi.
      rewrite (Hnb u') by (by eapply list_elem_of_lookup_2).
      split; [done|lia].
Qed.

Lemma places_first_come_witness :
  get_booking_count 1 (run (book_each "t" 1 [7; 8; 9]) sample_db)
    = Z.min (get_booking_count 1 sample_db + Z.of_nat (length [7; 8; 9])) 2 ∧
  (is_user_booked 9 1 (run (book_each "t" 1 [7; 8; 9]) sample_db) = true
   ↔ get_booking_count 1 sample_db + Z.of_nat 2 < 2).
Proof.
  destruct (places_first_come "t" 1
              (mkActivity 1 "Workshop" "AI" "15 Nov, 11:00" 2 true)
              [7; 8; 9] sample_db) as [Hc Hb].
  - vm_compute. reflexivity.
  - vm_compute. discriminate.
  - repeat (apply NoDup_cons_2;
              [rewrite ?elem_of_cons, elem_of_nil; lia|]).
    apply NoDup_nil_2.
  - intros u Hu. repeat (apply elem_of_cons in Hu as [->|Hu]);
      [vm_compute; reflexivity..|inversion Hu].
  - split; [exact Hc|]. apply (Hb 2%nat 9). reflexivity.
Defined.




(** ** Registration *)

Lemma step_users db op : users (step db op) = users db.
Proof.
  destruct op as [now uid aid|uid aid]; simpl; [|done].
  destruct (create_booking_cases now uid aid db)
    as [[-> _]|(row & db' & -> & _ & _ & Hins)]; [done|].
  simpl. by apply insert_booking_rows in Hins as (_ & _ & _ & -> & _).
Qed.

Lemma exec_keeps_user db c uid :
  is_Some (users db !! uid) → is_Some (users (exec db c) !! uid).
Proof.
  intros Hu.
  destruct c as [op|u uname fname lname adm|nm descr dt cap|q opts
                |now p u idx|p];
    rewrite ?exec_add_activity; try (destruct (sqlite_int cap); [|done]);
    simpl; try done.
  - by rewrite step_users.
  - apply lookup_insert_is_Some'. by right.
  - unfold vote_poll, insert_vote. by destruct (has_voted p u db).
Qed.

Lemma calls_keep_user db calls uid :
  is_Some (users db !! uid) → is_Some (users (foldl exec db calls) !! uid).
Proof.
  revert db. induction calls as [|c calls IH]; intros db Hu; [done|].
  apply (IH (exec db c)), exec_keeps_user, Hu.
Qed.

Section Registration.

Variable ADMIN_IDS : list Z.

(** X13. [cmd_start] stores the actor's row with the names given and the
    admin flag of the allow-list, replacing an earlier row of that actor,
    and touches no other user, no booking and no vote.  From then on,
    whatever calls follow, the actor stays registered, so every booking
    the actor holds appears in the listing of its activity. *)
Theorem start_registers uid uname fname lname db :
  users (cmd_start ADMIN_IDS uid uname fname lname db).2 !! uid
    = Some (mkUser uid uname fname lname (is_admin ADMIN_IDS uid)) ∧
  (∀ u, u ≠ uid →
        users (cmd_start ADMIN_IDS uid uname fname lname db).2 !! u
        = users db !! u) ∧
  bookings (cmd_start ADMIN_IDS uid uname fname lname db).2 = bookings db ∧
  poll_votes (cmd_start ADMIN_IDS uid uname fname lname db).2 = poll_votes db ∧
  (∀ calls b,
     b ∈ bookings (foldl exec (cmd_start ADMIN_IDS uid uname fname lname db).2 calls) →
     b_user_id b = uid →
     b ∈ l_booking
           <$> get_activity_bookings (b_activity_id b)
                 (foldl exec (cmd_start ADMIN_IDS uid uname fname lname db).2 calls)).
Proof.
  split; [apply lookup_insert_eq|].
  split; [intros u Hne; simpl; by rewrite lookup_insert_ne|].
  split; [done|]. split; [done|].
  intros calls b Hin Hu.
  assert (is_Some (users (foldl exec
                            (cmd_start ADMIN_IDS uid uname fname lname db).2
                            calls) !! uid)) as Hreg.
  { apply calls_keep_user. simpl. rewrite lookup_insert_eq. eauto. }
  rewrite listing_bookings. apply list_elem_of_filter. split.
  - by rewrite Hu.
  - apply list_elem_of_filter. done.
Qed.

End Registration.

(** ** New activities *)



(** X15. No call ever deactivates an activity or moves a row to another
    id: on every database reached from the empty one [get_activities]
    with [active_only] returns the same rows as without it, and a row is
    returned exactly when [get_activity] finds it under its own id. *)
Theorem activities_all_active calls :
  get_activities true (history calls) = get_activities false (history calls) ∧
  (∀ a, a ∈ get_activities true (history calls)
        ↔ get_activity (activity_id a) (history calls) = Some a).
Proof.
  pose proof (history_rows_ok calls) as Hrows.
  assert (get_activities true (history calls)
          = get_activities false (history calls)) as Heq.
  { unfold get_activities. apply filter_all.
    intros a ([k a'] & -> & Hin)%list_elem_of_fmap.
    apply elem_of_map_to_list in Hin. by apply (Hrows k a'). }
  split; [done|]. intros a. rewrite Heq. unfold get_activities, get_activity.
  rewrite list_elem_of_fmap. split.
  - intros ([k a'] & -> & Hin). apply elem_of_map_to_list in Hin.
    simpl. by destruct (Hrows k a' Hin) as [-> _].
  - intros Ha. exists (activity_id a, a). split; [done|].
    by apply elem_of_map_to_list.
Qed.

Lemma start_registers_witness :
  mkBooking 2 8 1 "t2"
  ∈ l_booking
      <$> get_activity_bookings 1
            (foldl exec (cmd_start [1] 8 None (Some "Bob") None sample_listing_db).2
               [Reservation (Cancel 7 1)]).
Proof.
  apply (proj2 (proj2 (proj2 (proj2
           (start_registers [1] 8 None (Some "Bob") None sample_listing_db))))
           [Reservation (Cancel 7 1)] (mkBooking 2 8 1 "t2")).
  - assert (bookings (foldl exec
                        (cmd_start [1] 8 None (Some "Bob") None sample_listing_db).2
                        [Reservation (Cancel 7 1)])
            = [mkBooking 2 8 1 "t2"]) as -> by (vm_compute; reflexivity).
    left.
  - reflexivity.
Defined.

(** ** The list of users *)


Section Admin.

Variable ADMIN_IDS : list Z.


(** X17. An actor outside the allow-list changes nothing through the
    administrative handlers: every step of the activity form, of the poll
    form and of the broadcast, the navigation handlers, the two lists and
    [close_poll_handler] leave the session and the database as they were,
    and the admin view and the export answer "access denied". *)
Theorem non_admin_changes_nothing uid :
  is_admin ADMIN_IDS uid = false →
  (∀ ctx, (start_add_activity ADMIN_IDS uid ctx).2 = ctx ∧
          (start_broadcast ADMIN_IDS uid ctx).2 = ctx ∧
          (start_create_poll ADMIN_IDS uid ctx).2 = ctx ∧
          (back_to_admin ADMIN_IDS uid ctx).2 = ctx ∧
          (∀ fails, (cancel_operation ADMIN_IDS fails uid ctx).2 = ctx)) ∧
  (∀ text ctx,
     process_activity_name ADMIN_IDS uid text ctx = ([], ctx) ∧
     process_activity_description ADMIN_IDS uid text ctx = ([], ctx) ∧
     process_activity_datetime ADMIN_IDS uid text ctx = ([], ctx) ∧
     process_poll_question ADMIN_IDS uid text ctx = ([], ctx)) ∧
  (∀ delivers text ctx db,
     process_activity_capacity ADMIN_IDS uid text ctx db = (Done [], ctx, db) ∧
     process_poll_options ADMIN_IDS delivers uid text ctx db
       = (Replied [], ctx, db) ∧
     process_broadcast ADMIN_IDS delivers uid ctx db = ([], ctx)) ∧
  (∀ ctx db,
     show_admin_bookings ADMIN_IDS uid ctx db = ([RAlert msg_access_denied], ctx) ∧
     show_users_list ADMIN_IDS uid ctx db = ([RAlert msg_access_denied], ctx)) ∧
  (∀ data db,
     close_poll_handler ADMIN_IDS uid data db
       = inr ([RAlert msg_access_denied], db) ∧
     on_export ADMIN_IDS uid data db = inr (Done [Alert msg_access_denied]) ∧
     on_admin_activity ADMIN_IDS uid data db
       = inr (Done [Alert msg_access_denied])) ∧
  (∀ aid db,
     export_bookings ADMIN_IDS uid aid db = Done [Alert msg_access_denied] ∧
     show_activity_bookings ADMIN_IDS uid aid db
       = Done [Alert msg_access_denied]).
Proof.
  intros Hadm.
  unfold start_add_activity, start_broadcast, start_create_poll,
    back_to_admin, cancel_operation, process_activity_name,
    process_activity_description, process_activity_datetime,
    process_poll_question, process_activity_capacity, process_poll_options,
    process_broadcast, show_admin_bookings, show_users_list,
    close_poll_handler, on_export, on_admin_activity, export_bookings,
    show_activity_bookings.
  rewrite Hadm. simpl. repeat split.
Qed.


End Admin.


Lemma non_admin_changes_nothing_witness :
  process_activity_capacity [1] 7 "30" sample_ctx sample_db
    = (Done [], sample_ctx, sample_db) ∧
  close_poll_handler [1] 7 "close_poll_1" sample_poll_db
    = inr ([RAlert msg_access_denied], sample_poll_db).
Proof.
  assert (is_admin [1] 7 = false) as Hno by (vm_compute; reflexivity).
  destruct (non_admin_changes_nothing [1] 7 Hno)
    as (_ & _ & Hsteps & _ & Hcb & _).
  split.
  - apply (Hsteps (λ _, true)).
  - apply Hcb.
Defined.


(** ** The allow-list *)

Lemma no_comma_uint d : no_char "," (NilEmpty.string_of_uint d).
Proof. induction d; simpl; auto. Qed.

Lemma no_comma_py_str n : no_char "," (py_str n).
Proof.
  unfold py_str. destruct (Z.to_int n); simpl;
    [|split; [done|]]; apply no_comma_uint.
Qed.

Lemma py_str_not_empty n : py_str n ≠ "".
Proof. intros He. pose proof (py_int_py_str n) as Hi. by rewrite He in Hi. Qed.

Lemma split_join sep e es :
  Forall (no_char sep) (e :: es) →
  py_split sep (py_join sep (e :: es)) = e :: es.
Proof.
  revert e. induction es as [|e' es IH]; intros e Hall.
  - simpl. apply py_split_no_char. by inversion Hall.
  - inversion Hall as [|? ? He Hes]; subst.
    change (py_join sep (e :: e' :: es))
      with (e +:+ String sep (py_join sep (e' :: es))).
    rewrite py_split_sep by done. by rewrite IH.
Qed.

Lemma split_join_any sep es :
  Forall (no_char sep) es →
  filter (λ id, strip id ≠ "") (py_split sep (py_join sep es))
  = filter (λ id, strip id ≠ "") es.
Proof.
  destruct es as [|e es]; [done|]. intros Hall. by rewrite split_join.
Qed.

Lemma no_comma_ids ids : Forall (no_char ",") (py_str <$> ids).
Proof.
  apply Forall_forall. intros s (n & -> & _)%list_elem_of_fmap.
  apply no_comma_py_str.
Qed.

(** Entries that are blank or hold an integer between blanks give the
    integers in order. *)
Lemma ids_of_entries entries (ids : list (option Z)) :
  Forall2 (λ e o, strip e = from_option py_str "" o) entries ids →
  mapM (λ id, py_int (strip id)) (filter (λ id, strip id ≠ "") entries)
  = Some (omap id ids).
Proof.
  intros Hall. apply mapM_Some_2.
  induction Hall as [|e o entries ids He _ IH]; [constructor|].
  rewrite filter_cons. destruct o as [n|]; simpl in He.
  - rewrite decide_True by (rewrite He; apply py_str_not_empty).
    csimpl. constructor; [|done]. by rewrite He, py_int_py_str.
  - rewrite decide_False by (by rewrite He; intros []).
    csimpl. apply IH.
Qed.

(** X19. The allow-list is read back from its own printed form: ids of at
    most 4300 digits, written in decimal and joined by commas, parse to
    the same list of ids.  The unset (empty) variable gives the empty
    allow-list.  For entries without a comma, joined by commas:
    whitespace around an id and blank entries are ignored, so entries
    that are each blank or such an id between whitespace give the ids in
    order; and one entry that is not blank and not an integer makes the
    expression raise rather than be skipped. *)
Theorem admin_ids_round_trip :
  (∀ ids,
     Forall within_str_digits ids →
     parse_admin_ids (py_join "," (py_str <$> ids)) = Some ids) ∧
  parse_admin_ids "" = Some [] ∧
  (∀ entries (ids : list (option Z)),
     Forall (no_char ",") entries →
     Forall within_str_digits (omap id ids) →
     Forall2 (λ e o, strip e = from_option py_str "" o) entries ids →
     parse_admin_ids (py_join "," entries) = Some (omap id ids)) ∧
  (∀ entries e,
     Forall (no_char ",") entries →
     e ∈ entries → strip e ≠ "" → py_int (strip e) = None →
     parse_admin_ids (py_join "," entries) = None).
Proof.
  assert (∀ entries (ids : list (option Z)),
            Forall (no_char ",") entries →
            Forall2 (λ e o, strip e = from_option py_str "" o) entries ids →
            parse_admin_ids (py_join "," entries) = Some (omap id ids))
    as Hgen.
  { intros entries ids Hcomma Hids. unfold parse_admin_ids.
    rewrite split_join_any by done. by apply ids_of_entries. }
  split; [|split; [done|split; [intros ? ? ? _; by apply Hgen|]]].
  - intros ids _.
    rewrite (Hgen (py_str <$> ids) (Some <$> ids)).
    + f_equal. induction ids as [|n ids IH]; [done|]. csimpl. by f_equal.
    + apply no_comma_ids.
    + apply Forall2_fmap, Forall_Forall2_diag, Forall_forall.
      intros n _. simpl. apply strip_plain, plain_py_str.
  - intros entries e Hcomma Hin Hne Hint. unfold parse_admin_ids.
    rewrite split_join_any by done. apply mapM_None, Exists_exists.
    exists e. split; [|done]. by apply list_elem_of_filter.
Qed.

Lemma admin_ids_round_trip_witness :
  parse_admin_ids "7,8" = Some [7; 8] ∧
  parse_admin_ids " 1, 2 ,,3 " = Some [1; 2; 3] ∧
  parse_admin_ids "1,x" = None.
Proof.
  destruct admin_ids_round_trip as (Hprint & _ & Hids & Hfail).
  split; [|split].
  - apply (Hprint [7; 8]). repeat constructor; by vm_compute.
  - apply (Hids [" 1"; " 2 "; ""; "3 "] [Some 1; Some 2; None; Some 3]).
    + repeat constructor; by vm_compute.
    + repeat constructor; by vm_compute.
    + repeat constructor; by vm_compute.
  - apply (Hfail ["1"; "x"] "x").
    + repeat constructor; by vm_compute.
    + set_solver.
    + by vm_compute.
    + by vm_compute.
Defined.

(** ** The keyboard of an actor's bookings and the admin keyboards *)

Lemma my_bookings_keyboard_rows bs :
  bs ≠ [] →
  get_my_bookings_keyboard bs
  = (λ booking,
       [mkButton ("❌ " +:+ ub_name booking)
          ("cancel_" +:+ py_str (b_activity_id (ub_booking booking)))]) <$> bs.
Proof. by destruct bs. Qed.

(** X20. Every row of an actor's list of bookings has its own button in
    the keyboard of [show_my_bookings], labelled with the name of the
    activity; pressing it cancels that very booking: the handler answers
    "cancelled" and the actor no longer holds the booking.  Without any
    row the keyboard consists of the one button that leads to the
    activities. *)
Theorem my_bookings_buttons page uid db :
  get_my_bookings_keyboard []
    = [[mkButton "📝 Записаться на активности" "show_activities"]] ∧
  (∀ r, r ∈ get_user_bookings uid db →
        [mkButton ("❌ " +:+ ub_name r)
           (btn_data (cancel_button (b_activity_id (ub_booking r))))]
          ∈ get_my_bookings_keyboard (get_user_bookings uid db) ∧
        ∃ rest db1,
          cancel_booking_handler page uid
            (btn_data (cancel_button (b_activity_id (ub_booking r)))) db
          = (RAlert msg_cancelled :: rest, db1) ∧
          is_user_booked uid (b_activity_id (ub_booking r)) db1 = false).
Proof.
  split; [done|]. intros r Hr. split.
  - rewrite my_bookings_keyboard_rows by (intros He; rewrite He in Hr; inversion Hr).
    apply (list_elem_of_fmap_2
             (λ booking,
                [mkButton ("❌ " +:+ ub_name booking)
                   ("cancel_" +:+ py_str (b_activity_id (ub_booking booking)))])
             _ r Hr).
  - assert (is_user_booked uid (b_activity_id (ub_booking r)) db = true) as Hb.
    { apply is_user_booked_true. exists (ub_booking r).
      assert (ub_booking r ∈ ub_booking <$> get_user_bookings uid db) as Hin
        by (by apply list_elem_of_fmap_2).
      rewrite user_bookings_rows in Hin.
      apply list_elem_of_filter in Hin as [_ Hin].
      apply list_elem_of_filter in Hin as [Hu Hin]. done. }
    rewrite cancel_handler_parsed.
    pose proof (cancel_result uid (b_activity_id (ub_booking r)) db) as Hres.
    rewrite Hb in Hres.
    pose proof (cancelled_not_booked uid (b_activity_id (ub_booking r)) db)
      as Hgone.
    destruct (cancel_booking uid (b_activity_id (ub_booking r)) db)
      as [success db1].
    simpl in Hres, Hgone. subst success. eauto.
Qed.

Lemma my_bookings_buttons_witness :
  ∃ rest db1,
    cancel_booking_handler false 7
      (btn_data (cancel_button
                   (b_activity_id
                      (ub_booking (mkUserBooking (mkBooking 1 7 1 "t1")
                                     "Workshop" "AI" "15 Nov, 11:00")))))
      sample_listing_db
    = (RAlert msg_cancelled :: rest, db1) ∧
    is_user_booked 7
      (b_activity_id
         (ub_booking (mkUserBooking (mkBooking 1 7 1 "t1")
                        "Workshop" "AI" "15 Nov, 11:00"))) db1 = false.
Proof.
  apply (my_bookings_buttons false 7 sample_listing_db).
  assert (get_user_bookings 7 sample_listing_db
          = [mkUserBooking (mkBooking 1 7 1 "t1")
               "Workshop" "AI" "15 Nov, 11:00"]) as ->
    by (vm_compute; reflexivity).
  left.
Defined.

Section AdminKeyboards.

Variable ADMIN_IDS : list Z.

(** X21. For an administrator the data of the admin keyboards reach the
    handlers with the id they were built from: the button of an activity
    in the admin list opens the bookings of that activity, the export
    button under it exports that activity, and the data "close_poll_<id>"
    of the close button closes that poll and nothing else. *)
Theorem admin_buttons_reach uid db :
  is_admin ADMIN_IDS uid = true →
  (∀ acts a,
     a ∈ acts →
     [mkButton (name a) ("admin_activity_" +:+ py_str (activity_id a))]
       ∈ get_admin_activities_keyboard acts ∧
     on_admin_activity ADMIN_IDS uid
       ("admin_activity_" +:+ py_str (activity_id a)) db
     = inr (show_activity_bookings ADMIN_IDS uid (activity_id a) db)) ∧
  (∀ aid,
     mkButton "📥 Экспорт списка" ("export_" +:+ py_str aid)
       ∈ concat (get_activity_export_keyboard aid) ∧
     on_export ADMIN_IDS uid ("export_" +:+ py_str aid) db
     = inr (export_bookings ADMIN_IDS uid aid db)) ∧
  (∀ pid,
     close_poll_handler ADMIN_IDS uid ("close_poll_" +:+ py_str pid) db
     = inr ([RAlert msg_poll_closed; RMessage true BPollClosedMark []],
            close_poll pid db)).
Proof.
  intros Hadm. split; [|split].
  - intros acts a Ha. split.
    + unfold get_admin_activities_keyboard. apply elem_of_app. left.
      apply (list_elem_of_fmap_2
               (λ activity,
                  [mkButton (name activity)
                     ("admin_activity_" +:+ py_str (activity_id activity))])
               _ a Ha).
    + unfold on_admin_activity. rewrite Hadm. simpl negb. cbv iota.
      change ("admin_activity_" +:+ py_str (activity_id a))
        with ("admin" +:+ String "_"
                ("activity" +:+ String "_" (py_str (activity_id a)))).
      by rewrite callback_int_2.
  - intros aid. split; [left|].
    unfold on_export. rewrite Hadm. simpl negb. cbv iota.
    change ("export_" +:+ py_str aid)
      with ("export" +:+ String "_" (py_str aid)).
    by rewrite callback_int_1.
  - intros pid. unfold close_poll_handler. rewrite Hadm. simpl negb. cbv iota.
    change ("close_poll_" +:+ py_str pid)
      with ("close" +:+ String "_" ("poll" +:+ String "_" (py_str pid))).
    by rewrite callback_int_2.
Qed.

End AdminKeyboards.

Lemma admin_buttons_reach_witness :
  on_export [1] 1 ("export_" +:+ py_str 1) sample_listing_db
    = inr (export_bookings [1] 1 1 sample_listing_db) ∧
  close_poll_handler [1] 1 ("close_poll_" +:+ py_str 1) sample_poll_db
    = inr ([RAlert msg_poll_closed; RMessage true BPollClosedMark []],
           close_poll 1 sample_poll_db).
Proof.
  split.
  - apply (admin_buttons_reach [1] 1 sample_listing_db).
    vm_compute. reflexivity.
  - apply (admin_buttons_reach [1] 1 sample_poll_db).
    vm_compute. reflexivity.
Defined.
